(** * ThingSpeak temperature dashboard: ingestion and analytics

    A shallow embedding of [fetch_data] and of the Home page of [main]
    from [thingspeak_dashboard.py], over a small model of the pandas and
    requests operations the two functions call.

    Conventions of the model.
    - Python exceptions are values of [exn]; a computation that may raise
      returns a [result].
    - A DataFrame is a column store with an index of integer labels.
    - Sensor readings are exact rationals ([Q]); pandas' NaN/None/NaT is the
      single missing value [NA]. Rounding of binary floating point and the
      infinities are not modelled.
    - Timestamps are nanoseconds since the epoch, within the bounds of
      pandas' 64-bit [Timestamp]; the difference of two timestamps is a
      [Timedelta] with the same bounds.
    - Equal sort keys keep the order of the feed; numpy leaves the order of
      equal keys open for long arrays, and no property below depends on it.
    - pandas' readers of one scalar (a date string, a numeric string) are
      parameters of the model, applied to each cell on its own; a date
      reader answers with an instant, with "not a time" (the empty string and
      the like, which pandas turns into NaT) or not at all. The examples use
      reference readers for ISO-8601 [Z] strings and decimal literals. *)

From Stdlib Require Import ZArith QArith String Ascii List Lia.
From stdpp Require Import base option list sorting gmap strings.

Set Warnings "-clear-no-such-hyp".

Local Open Scope Z_scope.

(** ** Exceptions *)

(** The key of a [KeyError]: a column or member name, a row label, or the
    NaN that stands for no label. *)
Inductive key :=
  | Name (s : string)
  | Label (l : nat)
  | NaNLabel.

Inductive exn :=
  | RequestException            (* requests.exceptions.RequestException and subclasses *)
  | KeyError (k : key)
  | IndexError
  | TypeError
  | ValueError
  | OutOfBoundsDatetime
  | OverflowError.

Inductive result (A : Type) :=
  | Ok (a : A)
  | Raise (e : exn).
Arguments Ok {A} a.
Arguments Raise {A} e.

#[global] Instance result_ret : MRet result := @Ok.
#[global] Instance result_bind : MBind result :=
  λ A B f m, match m with Ok a => f a | Raise e => Raise e end.

(** Element-wise application of a function that may raise: the first
    failing element raises. *)
Fixpoint traverse {A B} (f : A → result B) (l : list A) : result (list B) :=
  match l with
  | [] => Ok []
  | x :: l => y ← f x; k ← traverse f l; Ok (y :: k)
  end.

(** ** The remote response *)

(** A JSON scalar as found in a feed entry. *)
Inductive json_scalar :=
  | JNull
  | JNum (x : Q)
  | JStr (s : string).

(** One element of the [feeds] array: a JSON object with scalar members. *)
Abbreviation entry := (gmap string json_scalar).

(** The body of the HTTP response, as [response.json()] sees it. For a JSON
    object only the member [feeds] matters: [None] when the key is absent. *)
Inductive body :=
  | NotJson
  | JsonNotObject
  | JsonObject (feeds : option (list entry)).

Record Response := { status_code : Z; content : body }.

(** What [requests.get] meets: a transport failure (DNS, timeout, connection
    reset, too many redirects) or a response. *)
Inductive network :=
  | ConnectionFailed
  | Received (r : Response).

Module requests.

Definition get (net : network) : result Response :=
  match net with
  | ConnectionFailed => Raise RequestException
  | Received r => Ok r
  end.

(** [Response.raise_for_status]: HTTPError for 4xx and 5xx. *)
Definition raise_for_status (r : Response) : result unit :=
  if (400 <=? status_code r) && (status_code r <? 600)
  then Raise RequestException
  else Ok tt.

(** [Response.json]: JSONDecodeError is a RequestException. *)
Definition json (r : Response) : result body :=
  match content r with
  | NotJson => Raise RequestException
  | b => Ok b
  end.

End requests.

(** [data['feeds']] *)
Definition data_getitem (data : body) (member : string) : result (list entry) :=
  match data with
  | JsonObject (Some feeds) => Ok feeds
  | JsonObject None => Raise (KeyError (Name member))
  | _ => Raise TypeError
  end.

(** ** DataFrames *)

Inductive value :=
  | NA
  | Str (s : string)
  | Num (x : Q)
  | Timestamp (t : Z).

#[global] Instance value_inhabited : Inhabited value := populate NA.

(** What pandas makes of one object that is to be a date: an instant
    (nanoseconds since the epoch, UTC), no time at all (NaT, as for the empty
    string), or nothing, in which case it raises. *)
Inductive date_reading :=
  | Instant (t : Z)
  | NotATime
  | Unreadable.

Record DataFrame := {
  index : list nat;
  columns : gmap string (list value)
}.

(** [timedelta]s are nanosecond counts. *)
Definition ns_per_hour : Z := 3600 * 1000000000.
Definition ns_per_day : Z := 24 * ns_per_hour.

(** [TZ_OFFSET = timedelta(hours=-3)] *)
Definition TZ_OFFSET : Z := -3 * ns_per_hour.

Module pd.

(** [pd.DataFrame()] *)
Definition empty_frame : DataFrame := {| index := []; columns := ∅ |}.

(** [df.empty]: no row or no column. *)
Definition empty (df : DataFrame) : bool :=
  bool_decide (index df = []) || bool_decide (columns df = ∅).

Definition cell (e : entry) (c : string) : value :=
  match e !! c with
  | Some (JStr s) => Str s
  | Some (JNum x) => Num x
  | Some JNull | None => NA
  end.

(** [pd.DataFrame(records)] for a list of dicts: a RangeIndex, one column
    per key that occurs in some record, missing where a record lacks it. *)
Definition DataFrame_of (records : list entry) : DataFrame :=
  {| index := seq 0 (length records);
     columns := set_to_map (λ c, (c, (λ e, cell e c) <$> records))
                           (⋃ (dom <$> records) : gset string) |}.

(** [df[c]] *)
Definition getitem (df : DataFrame) (c : string) : result (list value) :=
  match columns df !! c with
  | Some col => Ok col
  | None => Raise (KeyError (Name c))
  end.

(** [df[c] = col] *)
Definition setitem (df : DataFrame) (c : string) (col : list value) : DataFrame :=
  {| index := index df; columns := <[c := col]> (columns df) |}.

(** Bounds of [Timestamp] and of [Timedelta]: int64 nanoseconds, the least
    int64 being NaT. *)
Definition Timestamp_min : Z := - 2 ^ 63 + 1.
Definition Timestamp_max : Z := 2 ^ 63 - 1.
Definition in_bounds (t : Z) : bool :=
  (Timestamp_min <=? t) && (t <=? Timestamp_max).

Section readers.
(** pandas' reading of one non-missing object as a date. *)
Variable to_datetime_scalar : value → date_reading.
(** pandas' reading of a numeric string, [None] when it is malformed. *)
Variable floatify : string → option Q.

Definition to_datetime1 (v : value) : result value :=
  match v with
  | NA => Ok NA
  | Timestamp t => Ok (Timestamp t)
  | v =>
      match to_datetime_scalar v with
      | Instant t => if in_bounds t then Ok (Timestamp t) else Raise OutOfBoundsDatetime
      | NotATime => Ok NA
      | Unreadable => Raise ValueError
      end
  end.

(** [pd.to_datetime(col, utc=True)] *)
Definition to_datetime (col : list value) : result (list value) :=
  traverse to_datetime1 col.

Definition to_numeric1 (v : value) : value :=
  match v with
  | Num x => Num x
  | Str s => match floatify s with Some x => Num x | None => NA end
  | NA | Timestamp _ => NA
  end.

(** [pd.to_numeric(col, errors='coerce')] *)
Definition to_numeric (col : list value) : list value :=
  to_numeric1 <$> col.
End readers.

Definition add_timedelta1 (td : Z) (v : value) : result value :=
  match v with
  | Timestamp t =>
      if in_bounds (t + td) then Ok (Timestamp (t + td)) else Raise OverflowError
  | NA => Ok NA
  | Str _ | Num _ => Raise TypeError
  end.

(** [col + td] on a datetime column *)
Definition add_timedelta (col : list value) (td : Z) : result (list value) :=
  traverse (add_timedelta1 td) col.

(** The datetime64 view of a column: [None] is NaT. Columns of another
    dtype are outside the model of [sort_values]; [fetch_data] never sorts
    by one. *)
Definition datetime1 (v : value) : result (option Z) :=
  match v with
  | Timestamp t => Ok (Some t)
  | NA => Ok None
  | Str _ | Num _ => Raise TypeError
  end.

Definition key_le (a b : nat * Z) : Prop := a.2 ≤ b.2.
#[global] Instance key_le_dec a b : Decision (key_le a b) := Z_le_dec a.2 b.2.

(** Sorting by insertion, which keeps equal keys in the order they have:
    what numpy does for short arrays. For long arrays numpy does not fix the
    order of equal keys. *)
Fixpoint insert_key (p : nat * Z) (l : list (nat * Z)) : list (nat * Z) :=
  match l with
  | [] => [p]
  | q :: l' => if decide (key_le p q) then p :: l else q :: insert_key p l'
  end.

Definition sort_keys (l : list (nat * Z)) : list (nat * Z) :=
  foldr insert_key [] l.

(** [nargsort(keys, ascending=True, na_position='last')]: positions of the
    present keys in ascending key order, then the positions of the missing
    keys. *)
Definition nargsort (keys : list (option Z)) : list nat :=
  let items := zip (seq 0 (length keys)) keys in
  let non_nan := omap (λ p : nat * option Z, (λ k, (p.1, k)) <$> p.2) items in
  let nan_idx := omap (λ p : nat * option Z,
                         match p.2 with None => Some p.1 | Some _ => None end) items in
  (fst <$> sort_keys non_nan) ++ nan_idx.

(** [df.take(indexer)]: rows at the given positions, labels kept. *)
Definition take (df : DataFrame) (indexer : list nat) : DataFrame :=
  {| index := (λ i, index df !!! i) <$> indexer;
     columns := (λ col : list value, (λ i, col !!! i) <$> indexer) <$> columns df |}.

(** [df.sort_values(by)] *)
Definition sort_values (df : DataFrame) (by_ : string) : result DataFrame :=
  col ← getitem df by_;
  keys ← traverse datetime1 col;
  Ok (take df (nargsort keys)).

(** [col.iloc[i]]: Python indexing, negative positions from the end. *)
Definition iloc (col : list value) (i : Z) : result value :=
  let n := Z.of_nat (length col) in
  let j := if i <? 0 then i + n else i in
  if (0 <=? j) && (j <? n)
  then match col !! Z.to_nat j with Some v => Ok v | None => Raise IndexError end
  else Raise IndexError.

(** The float64 view of a column: [None] is NaN. *)
Definition float1 (v : value) : result (option Q) :=
  match v with
  | Num x => Ok (Some x)
  | NA => Ok None
  | Str _ | Timestamp _ => Raise TypeError
  end.

(** Subtraction of two float64 scalars: NaN is absorbing. *)
Definition sub (a b : value) : result value :=
  x ← float1 a; y ← float1 b;
  Ok (match x, y with
      | Some x, Some y => Num (Qred (x - y))
      | _, _ => NA
      end).

(** [better x best]: whether [x] replaces the running extreme [best] in a
    left-to-right scan, strictly, so that the first occurrence is kept. *)
Definition gtb (x y : Q) : bool := negb (Qle_bool x y).
Definition ltb (x y : Q) : bool := negb (Qle_bool y x).

(** A scan that skips NaN and keeps the first extreme, with its position. *)
Fixpoint scan (better : Q → Q → bool) (best : option (nat * Q)) (i : nat)
    (xs : list (option Q)) : option (nat * Q) :=
  match xs with
  | [] => best
  | None :: xs => scan better best (S i) xs
  | Some x :: xs =>
      match best with
      | Some (_, b) =>
          if better x b then scan better (Some (i, x)) (S i) xs
          else scan better best (S i) xs
      | None => scan better (Some (i, x)) (S i) xs
      end
  end.

(** [col.max()], [col.min()] with [skipna=True]: NaN when all are NaN. *)
Definition max (xs : list (option Q)) : value :=
  match scan gtb None 0 xs with Some (_, x) => Num x | None => NA end.
Definition min (xs : list (option Q)) : value :=
  match scan ltb None 0 xs with Some (_, x) => Num x | None => NA end.

(** [col.idxmax()], [col.idxmin()]: the label at the first position of the
    extreme; [None] is the NaN that pandas returns for an all-NaN column
    (later versions of pandas raise ValueError at this point instead). *)
Definition idxmax (df : DataFrame) (xs : list (option Q)) : option nat :=
  p ← scan gtb None 0 xs; index df !! p.1.
Definition idxmin (df : DataFrame) (xs : list (option Q)) : option nat :=
  p ← scan ltb None 0 xs; index df !! p.1.

(** Position of a label in the index. *)
Fixpoint get_loc (labels : list nat) (l : nat) : option nat :=
  match labels with
  | [] => None
  | l' :: labels => if decide (l' = l) then Some 0%nat else S <$> get_loc labels l
  end.

(** [df.loc[label, c]] *)
Definition loc (df : DataFrame) (label : option nat) (c : string) : result value :=
  match label with
  | None => Raise (KeyError NaNLabel)
  | Some l =>
      match get_loc (index df) l with
      | None => Raise (KeyError (Label l))
      | Some i =>
          col ← getitem df c;
          match col !! i with Some v => Ok v | None => Raise IndexError end
      end
  end.

(** [ts.strftime(fmt)]: NaT does not support it. The text is not modelled. *)
Definition strftime (v : value) : result unit :=
  match v with
  | Timestamp _ => Ok tt
  | NA => Raise ValueError
  | Str _ | Num _ => Raise TypeError
  end.

(** [f"{x:.2f}"] of a float64 scalar; NaN prints as [nan]. *)
Definition format_2f (v : value) : result unit :=
  x ← float1 v; Ok tt.

(** [(a - b).days]: the difference of two timestamps is a Timedelta, whose
    nanoseconds have the bounds of a timestamp's; its days are rounded
    towards minus infinity as Python's timedelta normalisation does. [main]
    applies it to two values that [strftime] has accepted, which are
    timestamps; the other cases are not modelled further. *)
Definition days_between (a b : value) : result Z :=
  match a, b with
  | Timestamp x, Timestamp y =>
      if in_bounds (x - y) then Ok ((x - y) `div` ns_per_day)
      else Raise OutOfBoundsDatetime
  | _, _ => Raise TypeError
  end.

End pd.

(** ** The program *)

(** [st.error(f"{text}{cause}")] *)
Record notice := { text : string; cause : exn }.

Record Metric := { current_temp : value; delta_temp : value }.

Record Range := { first_timestamp : value; last_timestamp : value; days_passed : Z }.

Record Extremes := {
  max_temp : value;
  min_temp : value;
  max_temp_time : value;
  min_temp_time : value
}.

(** What the Home page shows when there is data. *)
Record Home := {
  sensor1 : Metric;
  plot1 : list value * list value;
  sensor2 : Metric;
  plot2 : list value * list value;
  data_range : Range;
  extremes1 : Extremes;
  extremes2 : Extremes
}.

Section program.
Variable to_datetime_scalar : value → date_reading.
Variable floatify : string → option Q.

(** The [try] block of [fetch_data]. *)
Definition fetch_data_try (net : network) : result DataFrame :=
  response ← requests.get net;
  _ ← requests.raise_for_status response;
  data ← requests.json response;
  feeds ← data_getitem data "feeds";
  let df := pd.DataFrame_of feeds in
  created_at ← pd.getitem df "created_at";
  created_at ← pd.to_datetime to_datetime_scalar created_at;
  let df := pd.setitem df "created_at" created_at in
  created_at ← pd.getitem df "created_at";
  created_at ← pd.add_timedelta created_at TZ_OFFSET;
  let df := pd.setitem df "created_at" created_at in
  field1 ← pd.getitem df "field1";
  let df := pd.setitem df "field1" (pd.to_numeric floatify field1) in
  field2 ← pd.getitem df "field2";
  let df := pd.setitem df "field2" (pd.to_numeric floatify field2) in
  pd.sort_values df "created_at".

(** [fetch_data], with the notices it hands to [st.error]. *)
Definition fetch_data (net : network) : DataFrame * list notice :=
  match fetch_data_try net with
  | Ok df => (df, [])
  | Raise RequestException =>
      (pd.empty_frame,
       [{| text := "Error fetching data from ThingSpeak: "; cause := RequestException |}])
  | Raise (KeyError k) =>
      (pd.empty_frame,
       [{| text := "Error processing ThingSpeak data: "; cause := KeyError k |}])
  | Raise e =>
      (pd.empty_frame,
       [{| text := "An unexpected error occurred: "; cause := e |}])
  end.

(** [create_plot]: the x and y data of the trace. *)
Definition create_plot (df : DataFrame) (y_col : string)
    : result (list value * list value) :=
  x ← pd.getitem df "created_at";
  y ← pd.getitem df y_col;
  Ok (x, y).

(** The current reading of a sensor and its change since the previous
    sample, as passed to [st.metric]. *)
Definition metric (df : DataFrame) (field : string) : result Metric :=
  col ← pd.getitem df field;
  current_temp ← pd.iloc col (-1);
  _ ← pd.format_2f current_temp;
  col ← pd.getitem df field;
  previous ← pd.iloc col (-2);
  delta ← pd.sub current_temp previous;
  _ ← pd.format_2f delta;
  Ok {| current_temp := current_temp; delta_temp := delta |}.

(** The "Data Range" panel. *)
Definition range (df : DataFrame) : result Range :=
  col ← pd.getitem df "created_at";
  first_timestamp ← pd.iloc col 0;
  col ← pd.getitem df "created_at";
  last_timestamp ← pd.iloc col (-1);
  _ ← pd.strftime first_timestamp;
  _ ← pd.strftime last_timestamp;
  days_passed ← pd.days_between last_timestamp first_timestamp;
  Ok {| first_timestamp := first_timestamp;
        last_timestamp := last_timestamp;
        days_passed := days_passed |}.

(** The extremes of one sensor and when they were recorded. *)
Definition extremes (df : DataFrame) (field : string) : result Extremes :=
  col ← pd.getitem df field;
  xs ← traverse pd.float1 col;
  let max_temp := pd.max xs in
  let min_temp := pd.min xs in
  max_temp_time ← pd.loc df (pd.idxmax df xs) "created_at";
  min_temp_time ← pd.loc df (pd.idxmin df xs) "created_at";
  Ok {| max_temp := max_temp; min_temp := min_temp;
        max_temp_time := max_temp_time; min_temp_time := min_temp_time |}.

(** The two lines that print the extremes. *)
Definition show_extremes (e : Extremes) : result unit :=
  _ ← pd.format_2f (max_temp e);
  _ ← pd.strftime (max_temp_time e);
  _ ← pd.format_2f (min_temp e);
  pd.strftime (min_temp_time e).

(** The Home page for a frame: [None] is the "No data available" branch. *)
Definition home (df : DataFrame) : result (option Home) :=
  if negb (pd.empty df) then
    sensor1 ← metric df "field1";
    plot1 ← create_plot df "field1";
    sensor2 ← metric df "field2";
    plot2 ← create_plot df "field2";
    data_range ← range df;
    extremes1 ← extremes df "field1";
    _ ← show_extremes extremes1;
    extremes2 ← extremes df "field2";
    _ ← show_extremes extremes2;
    Ok (Some {| sensor1 := sensor1; plot1 := plot1;
                sensor2 := sensor2; plot2 := plot2;
                data_range := data_range;
                extremes1 := extremes1; extremes2 := extremes2 |})
  else Ok None.

(** [main] with "Home" selected. *)
Definition main (net : network) : result (option Home) * list notice :=
  let '(df, notices) := fetch_data net in
  (home df, notices).

End program.

(** ** Reference readers, for the examples *)

Module Reference.

Definition digit (a : ascii) : option Z :=
  let n := Z.of_nat (nat_of_ascii a) in
  if (48 <=? n) && (n <=? 57) then Some (n - 48) else None.

(** The value of a non-empty run of decimal digits. *)
Fixpoint digits (acc : Z) (l : list ascii) : option Z :=
  match l with
  | [] => Some acc
  | a :: l => d ← digit a; digits (10 * acc + d) l
  end.

Definition number (l : list ascii) : option Z :=
  match l with [] => None | _ => digits 0 l end.

(** Days from 1970-01-01 to a date of the proleptic Gregorian calendar. *)
Definition days_from_civil (y m d : Z) : Z :=
  let y := if m <=? 2 then y - 1 else y in
  let era := y `div` 400 in
  let yoe := y - era * 400 in
  let mp := if 2 <? m then m - 3 else m + 9 in
  let doy := (153 * mp + 2) `div` 5 + d - 1 in
  let doe := yoe * 365 + yoe `div` 4 - yoe `div` 100 + doy in
  era * 146097 + doe - 719468.

Definition leap_year (y : Z) : bool :=
  (y `mod` 4 =? 0) && (negb (y `mod` 100 =? 0) || (y `mod` 400 =? 0)).

Definition days_in_month (y m : Z) : Z :=
  if m =? 2 then (if leap_year y then 29 else 28)
  else if (m =? 4) || (m =? 6) || (m =? 9) || (m =? 11) then 30
  else 31.

(** [YYYY-MM-DDTHH:MM:SSZ], the form in which ThingSpeak writes a
    created_at, as nanoseconds since the epoch. *)
Definition iso8601 (s : string) : option Z :=
  match list_ascii_of_string s with
  | [y1; y2; y3; y4; "-"; m1; m2; "-"; d1; d2; "T"; h1; h2; ":"; n1; n2; ":"; s1; s2; "Z"]%char =>
      y ← number [y1; y2; y3; y4];
      m ← number [m1; m2];
      d ← number [d1; d2];
      h ← number [h1; h2];
      n ← number [n1; n2];
      s ← number [s1; s2];
      if (1 <=? m) && (m <=? 12) && (1 <=? d) && (d <=? days_in_month y m)
         && (h <? 24) && (n <? 60) && (s <? 60)
      then Some ((days_from_civil y m d * 86400 + h * 3600 + n * 60 + s) * 1000000000)
      else None
  | _ => None
  end.

(** The strings that stand for no time. *)
Definition nat_string (s : string) : bool :=
  bool_decide (s ∈ [""; "NaT"; "nat"; "NAT"; "nan"; "NaN"; "NAN"]).

(** A reader of the created_at strings of a ThingSpeak feed. The other
    forms of a date that pandas reads, and a created_at that is a number,
    are outside it: the examples have none. *)
Definition to_datetime_scalar (v : value) : date_reading :=
  match v with
  | Str s =>
      if nat_string s then NotATime
      else match iso8601 s with Some t => Instant t | None => Unreadable end
  | _ => Unreadable
  end.

(** Split a list at its first dot. *)
Fixpoint split_dot (l : list ascii) : list ascii * option (list ascii) :=
  match l with
  | [] => ([], None)
  | a :: l =>
      if Ascii.eqb a "." then ([], Some l)
      else let '(i, f) := split_dot l in (a :: i, f)
  end.

Definition unsigned_decimal (l : list ascii) : option Q :=
  match split_dot l with
  | (i, None) => n ← number i; Some (inject_Z n)
  | (i, Some f) =>
      n ← number (i ++ f);
      Some (Qred (Qmake n (Z.to_pos (10 ^ Z.of_nat (length f)))))
  end.

Definition is_space (a : ascii) : bool :=
  let n := nat_of_ascii a in
  ((n =? 32) || ((9 <=? n) && (n <=? 13)))%nat.

Fixpoint lstrip (l : list ascii) : list ascii :=
  match l with
  | a :: l' => if is_space a then lstrip l' else l
  | [] => []
  end.

Definition strip (l : list ascii) : list ascii := rev (lstrip (rev (lstrip l))).

(** Split a list at its first exponent mark. *)
Fixpoint split_exp (l : list ascii) : list ascii * option (list ascii) :=
  match l with
  | [] => ([], None)
  | a :: l =>
      if Ascii.eqb a "e" || Ascii.eqb a "E" then ([], Some l)
      else let '(m, x) := split_exp l in (a :: m, x)
  end.

Definition signed {A} (neg : A → A) (f : list ascii → option A)
    (l : list ascii) : option A :=
  match l with
  | "-"%char :: l => neg <$> f l
  | "+"%char :: l => f l
  | l => f l
  end.

Definition pow10 (e : Z) : Q :=
  if 0 <=? e then inject_Z (10 ^ e) else Qmake 1 (Z.to_pos (10 ^ (- e))).

(** A decimal literal between optional white space: an optional sign,
    digits with an optional fraction, an optional exponent. The value is
    exact; the words for infinity are not read, a reading being a
    rational. *)
Definition decimal (s : string) : option Q :=
  let '(m, x) := split_exp (strip (list_ascii_of_string s)) in
  m ← signed Qopp unsigned_decimal m;
  e ← match x with None => Some 0 | Some x => signed Z.opp number x end;
  Some (Qred (m * pow10 e)).

End Reference.

(** ** Auxiliary definitions for the statements *)

(** Some record has the key [c]: the frame built from the records has the
    column. *)
Definition has_column (feed : list entry) (c : string) : Prop :=
  Exists (λ e : entry, is_Some (e !! c)) feed.

(** The instant held by a datetime cell, [None] for NaT. *)
Definition instant (v : value) : option Z :=
  match v with Timestamp t => Some t | _ => None end.

(** The reading held by a float cell, [None] for NaN. *)
Definition reading (v : value) : option Q :=
  match v with Num x => Some x | _ => None end.

Section stages.
Variable to_datetime_scalar : value → date_reading.
Variable floatify : string → option Q.

(** What lines 27 and 28 of [fetch_data] make of one created_at cell. *)
Definition local_time (v : value) : result value :=
  t ← pd.to_datetime1 to_datetime_scalar v; pd.add_timedelta1 TZ_OFFSET t.

(** The frame of [fetch_data] before [sort_values], with [ts] as its
    created_at column. *)
Definition unsorted (feed : list entry) (ts : list value) : DataFrame :=
  let df := pd.DataFrame_of feed in
  let df := pd.setitem df "created_at" ts in
  let df := pd.setitem df "field1"
              (pd.to_numeric floatify ((λ e, pd.cell e "field1") <$> feed)) in
  pd.setitem df "field2"
    (pd.to_numeric floatify ((λ e, pd.cell e "field2") <$> feed)).
End stages.

(** The cell of column [c] at row position [j]. *)
Definition cell_at (df : DataFrame) (c : string) (j : nat) : option value :=
  col ← columns df !! c; col !! j.

(** A datetime cell from its instant. *)
Definition of_instant (k : option Z) : value :=
  match k with Some t => Timestamp t | None => NA end.

(** The network delivers the feed [feed] in a response that passes
    [raise_for_status]. *)
Definition delivers (net : network) (feed : list entry) : Prop :=
  ∃ r, net = Received r ∧ requests.raise_for_status r = Ok tt
       ∧ content r = JsonObject (Some feed).

(** The created_at column of a frame, empty when the frame has none. *)
Definition timestamps (df : DataFrame) : list value :=
  default [] (columns df !! "created_at").

(** The two failure categories, as the code tells them apart: what
    [requests] raises, and a JSON object without the member [feeds]. *)
Definition fetch_failure (net : network) : Prop :=
  net = ConnectionFailed
  ∨ ∃ r, net = Received r ∧ 400 ≤ status_code r < 600.

Definition schema_failure (net : network) : Prop :=
  ∃ r, net = Received r ∧ ¬ (400 ≤ status_code r < 600)
       ∧ content r = JsonObject None.

Definition fetch_notice : notice :=
  {| text := "Error fetching data from ThingSpeak: "; cause := RequestException |}.

Definition schema_notice : notice :=
  {| text := "Error processing ThingSpeak data: "; cause := KeyError (Name "feeds") |}.

(** Position [i] holds the first extreme [x] of a float column, for the
    strict order [better]: no reading is better than [x], and [x] is better
    than every reading before position [i]. Missing readings do not count. *)
Definition first_extreme (better : Q → Q → bool) (xs : list (option Q))
    (i : nat) (x : Q) : Prop :=
  xs !! i = Some (Some x)
  ∧ (∀ k y, xs !! k = Some (Some y) → better y x = false)
  ∧ (∀ k y, (k < i)%nat → xs !! k = Some (Some y) → better x y = true).

(** The first maximum and the first minimum in the order of [Q]. *)
Definition first_max (xs : list (option Q)) (i : nat) (x : Q) : Prop :=
  xs !! i = Some (Some x)
  ∧ (∀ k y, xs !! k = Some (Some y) → (y <= x)%Q)
  ∧ (∀ k y, (k < i)%nat → xs !! k = Some (Some y) → (y < x)%Q).

Definition first_min (xs : list (option Q)) (i : nat) (x : Q) : Prop :=
  xs !! i = Some (Some x)
  ∧ (∀ k y, xs !! k = Some (Some y) → (x <= y)%Q)
  ∧ (∀ k y, (k < i)%nat → xs !! k = Some (Some y) → (x < y)%Q).

(** A float column: every cell is a reading or NaN. *)
Definition float_column (col : list value) : Prop :=
  Forall (λ v, v = NA ∨ ∃ x, v = Num x) col.

(** Row labels are unique and every column has one cell per row. *)
Definition wf_frame (df : DataFrame) : Prop :=
  NoDup (index df)
  ∧ ∀ c col, columns df !! c = Some col → length col = length (index df).

(** ** Example feeds *)

(** [fetch_data] and [main] with the reference readers. *)
Definition ref_fetch_data := fetch_data Reference.to_datetime_scalar Reference.decimal.
Definition ref_main := main Reference.to_datetime_scalar Reference.decimal.

(** A feed record with the three members the dashboard reads. *)
Definition jentry (t : json_scalar) (f1 f2 : json_scalar) : entry :=
  {[ "created_at" := t; "field1" := f1; "field2" := f2 ]}.

(** A response with status 200 that carries the feed. *)
Definition good (feed : list entry) : network :=
  Received {| status_code := 200; content := JsonObject (Some feed) |}.

(** The feed of the end-to-end scenario. *)
Definition scenario_feed : list entry :=
  [ jentry (JStr "2024-01-01T00:00:00Z") (JStr "20.0") (JStr "21.0");
    jentry (JStr "2024-01-02T00:00:00Z") (JStr "22.5") JNull ].

(** The same feed behind a response with status 300. *)
Definition multiple_choices : Response :=
  {| status_code := 300; content := JsonObject (Some scenario_feed) |}.

(** A feed with one record. *)
Definition single_feed : list entry :=
  [ jentry (JStr "2024-01-01T00:00:00Z") (JStr "20.0") (JStr "21.0") ].

(** A feed in which no record has a reading of sensor 1. *)
Definition all_null_feed : list entry :=
  [ jentry (JStr "2024-01-01T00:00:00Z") JNull (JStr "21.0");
    jentry (JStr "2024-01-02T00:00:00Z") JNull (JStr "21.5") ].

(** A feed that arrives in reverse order; sorted, sensor 1 reads 5, 9, 9. *)
Definition tie_feed : list entry :=
  [ jentry (JStr "2024-01-03T00:00:00Z") (JStr "9") (JStr "4.5");
    jentry (JStr "2024-01-02T00:00:00Z") (JStr "9.0") (JStr "4.5");
    jentry (JStr "2024-01-01T00:00:00Z") (JStr "5") (JStr "6") ].

(** A feed whose last record, in time, has no reading of sensor 2. *)
Definition null_last_feed : list entry :=
  [ jentry (JStr "2024-01-01T00:00:00Z") (JStr "20.0") (JStr "21.0");
    jentry (JStr "2024-01-02T00:00:00Z") (JStr "22.5") (JStr "23.0");
    jentry (JStr "2024-01-03T12:00:00Z") (JStr "22.0") JNull ].

(** The frames that [fetch_data] returns for the example feeds, read with
    the reference readers. *)
Definition scenario_frame : DataFrame := (ref_fetch_data (good scenario_feed)).1.
Definition single_frame : DataFrame := (ref_fetch_data (good single_feed)).1.
Definition all_null_frame : DataFrame := (ref_fetch_data (good all_null_feed)).1.
Definition tie_frame : DataFrame := (ref_fetch_data (good tie_feed)).1.
Definition null_last_frame : DataFrame := (ref_fetch_data (good null_last_feed)).1.


(** A feed whose second record has no created_at. *)
Definition undated_feed : list entry :=
  [ jentry (JStr "2024-01-02T00:00:00Z") (JStr "22.5") (JStr "23.0");
    jentry JNull (JStr "21.0") (JStr "21.5");
    jentry (JStr "2024-01-01T00:00:00Z") (JStr "20.0") (JStr "21.0") ].

(** ** Definitions for the further properties *)

(** The notices of the second and third [except] clauses. *)
Definition processing_notice (c : string) : notice :=
  {| text := "Error processing ThingSpeak data: "; cause := KeyError (Name c) |}.

Definition unexpected_notice (e : exn) : notice :=
  {| text := "An unexpected error occurred: "; cause := e |}.

(** The created_at of a record passes lines 27 and 28: it is missing or read
    as no time, or it is read as an instant that is within bounds before and
    after the shift. *)
Definition readable (to_datetime_scalar : value → date_reading) (e : entry) : Prop :=
  ∃ t, local_time to_datetime_scalar (pd.cell e "created_at") = Ok t.

(** A feed whose records have no created_at member. *)
Definition undated_column_feed : list entry :=
  [ {[ "field1" := JStr "20.0"; "field2" := JStr "21.0" ]} ].

(** A feed of a channel with one sensor. *)
Definition one_sensor_feed : list entry :=
  [ {[ "created_at" := JStr "2024-01-01T00:00:00Z"; "field1" := JStr "20.0" ]};
    {[ "created_at" := JStr "2024-01-02T00:00:00Z"; "field1" := JStr "22.5" ]} ].

(** A feed with a date that the reference reader does not accept. *)
Definition bad_date_feed : list entry :=
  [ jentry (JStr "2024-01-01T00:00:00Z") (JStr "20.0") (JStr "21.0");
    jentry (JStr "yesterday") (JStr "22.5") (JStr "23.0") ].

Section shown.
Variable to_datetime_scalar : value → date_reading.
Variable floatify : string → option Q.

(** The created_at cell that a record gets in the frame: its local time,
    missing when the record has none. *)
Definition shown_time (e : entry) : value :=
  match local_time to_datetime_scalar (pd.cell e "created_at") with
  | Ok t => t
  | Raise _ => NA
  end.

(** The cell that a record gets in column [c] of the frame. *)
Definition shown_cell (c : string) (e : entry) : value :=
  if decide (c = "created_at") then shown_time e
  else if decide (c = "field1" ∨ c = "field2")
       then pd.to_numeric1 floatify (pd.cell e c)
       else pd.cell e c.

(** The instant by which a record is sorted, none for a record without
    timestamp. *)
Definition sort_key (e : entry) : option Z := instant (shown_time e).

(** The records of a feed in the order of the rows of the frame. *)
Definition sorted_records (feed : list entry) : list entry :=
  (λ i, feed !!! i) <$> pd.nargsort (sort_key <$> feed).
End shown.

(** The order of the sort keys: instants in ascending order, then the
    missing ones. *)
Definition key_le_last (a b : option Z) : Prop :=
  match a, b with
  | Some x, Some y => x ≤ y
  | _, None => True
  | None, Some _ => False
  end.

(** The end-to-end scenario with its records in the opposite order. *)
Definition scenario_feed_reversed : list entry :=
  [ jentry (JStr "2024-01-02T00:00:00Z") (JStr "22.5") JNull;
    jentry (JStr "2024-01-01T00:00:00Z") (JStr "20.0") (JStr "21.0") ].

(** A feed whose records carry their entry number besides the three
    members the dashboard reads; it arrives out of order. *)
Definition numbered_feed : list entry :=
  [ <["entry_id" := JNum 2]>
      (jentry (JStr "2024-01-02T00:00:00Z") (JStr "22.5") (JStr "23.0"));
    <["entry_id" := JNum 1]>
      (jentry (JStr "2024-01-01T00:00:00Z") (JStr "20.0") (JStr "21.0")) ].

Definition numbered_frame : DataFrame := (ref_fetch_data (good numbered_feed)).1.

(** A feed whose first record has an empty created_at. *)
Definition blank_date_feed : list entry :=
  [ jentry (JStr "") (JStr "19.0") (JStr "19.5");
    jentry (JStr "2024-01-02T00:00:00Z") (JStr "22.5") (JStr "23.0");
    jentry (JStr "2024-01-01T00:00:00Z") (JStr "20.0") (JStr "21.0") ].

Definition blank_date_frame : DataFrame := (ref_fetch_data (good blank_date_feed)).1.

(** A feed whose records are three centuries apart. *)
Definition wide_feed : list entry :=
  [ jentry (JStr "1700-01-01T00:00:00Z") (JStr "20.0") (JStr "21.0");
    jentry (JStr "2000-01-01T00:00:00Z") (JStr "22.5") (JStr "23.0") ].

Definition wide_frame : DataFrame := (ref_fetch_data (good wide_feed)).1.

(** A feed with a date that is within the bounds of a timestamp and leaves
    them when it is shifted, and a feed with a date before them. *)
Definition early_feed : list entry :=
  [ jentry (JStr "2024-01-01T00:00:00Z") (JStr "20.0") (JStr "21.0");
    jentry (JStr "1677-09-21T01:00:00Z") (JStr "22.5") (JStr "23.0") ].

Definition ancient_feed : list entry :=
  [ jentry (JStr "2024-01-01T00:00:00Z") (JStr "20.0") (JStr "21.0");
    jentry (JStr "1600-01-01T00:00:00Z") (JStr "22.5") (JStr "23.0") ].

(** * Properties *)

(** ** The error monad *)

Lemma bind_Ok {A B} (m : result A) (f : A → result B) b :
  m ≫= f = Ok b ↔ ∃ a, m = Ok a ∧ f a = Ok b.
Proof.
  destruct m as [a|e]; simpl; split.
  - intros H. by exists a.
  - by intros (a' & [= <-] & H).
  - discriminate.
  - by intros (a' & [=] & _).
Qed.

Lemma traverse_Ok {A B} (f : A → result B) l k :
  traverse f l = Ok k ↔ Forall2 (λ x y, f x = Ok y) l k.
Proof.
  revert k. induction l as [|x l IH]; intros k; simpl.
  - split; [intros [= <-]; constructor | by inversion 1].
  - rewrite bind_Ok. split.
    + intros (y & Hy & H). apply bind_Ok in H as (k' & Hk' & [= <-]).
      constructor; [done | by apply IH].
    + inversion 1 as [|? y ? k' Hy Hk']; subst.
      exists y. split; [done|]. apply bind_Ok. exists k'. split; [by apply IH | done].
Qed.

Lemma traverse_total {A B} (f : A → result B) (g : A → B) l :
  Forall (λ x, f x = Ok (g x)) l → traverse f l = Ok (g <$> l).
Proof.
  intros H. apply traverse_Ok. induction H; constructor; auto.
Qed.

(** ** Construction of a frame from records *)

Lemma DataFrame_of_columns (records : list entry) c :
  columns (pd.DataFrame_of records) !! c =
    if decide (Exists (λ e, is_Some (e !! c)) records)
    then Some ((λ e, pd.cell e c) <$> records) else None.
Proof.
  unfold pd.DataFrame_of; simpl.
  assert (Hdom : c ∈ (⋃ (dom <$> records) : gset string)
                 ↔ Exists (λ e : entry, is_Some (e !! c)) records).
  { rewrite elem_of_union_list, Exists_exists. split.
    - intros (X & HX & Hc). apply list_elem_of_fmap in HX as (e & -> & He).
      exists e. split; [done | by apply elem_of_dom].
    - intros (e & He & Hc). exists (dom e). split;
        [apply list_elem_of_fmap; eauto | by apply elem_of_dom]. }
  case_decide as Hex.
  - apply lookup_set_to_map; [by intros ?? _ _ [=] |].
    exists c. split; [by apply Hdom | done].
  - apply eq_None_not_Some. intros [col Hcol].
    apply lookup_set_to_map in Hcol as (c' & Hc' & [= <- _]); [|by intros ?? _ _ [=]].
    by apply Hex, Hdom.
Qed.

(** ** The sort indexer *)

#[local] Instance key_le_total : Total pd.key_le.
Proof. intros a b. unfold pd.key_le. lia. Qed.

Lemma split_Permutation (l : list (nat * option Z)) :
  (omap (λ p : nat * option Z, (λ k, (p.1, k)) <$> p.2) l).*1
    ++ omap (λ p : nat * option Z,
               match p.2 with None => Some p.1 | Some _ => None end) l
  ≡ₚ l.*1.
Proof.
  induction l as [|[i [k|]] l IH]; simpl.
  - done.
  - by f_equiv.
  - by rewrite <- Permutation_middle, IH.
Qed.

Lemma items_lookup {A} (keys : list A) p :
  p ∈ zip (seq 0 (length keys)) keys → keys !! p.1 = Some p.2.
Proof.
  intros Hp. apply list_elem_of_lookup in Hp as (j & Hj). destruct p as [i k].
  apply lookup_zip_Some in Hj as (Hi & Hk).
  apply lookup_seq in Hi as (-> & _). done.
Qed.

Lemma insert_key_Permutation p l : pd.insert_key p l ≡ₚ p :: l.
Proof.
  induction l as [|q l IH]; simpl; [done|].
  case_decide; [done|]. by rewrite IH, Permutation_swap.
Qed.

Lemma sort_keys_Permutation l : pd.sort_keys l ≡ₚ l.
Proof.
  induction l as [|p l IH]; simpl; [done|].
  by rewrite insert_key_Permutation, IH.
Qed.

Lemma insert_key_Sorted p l :
  Sorted pd.key_le l → Sorted pd.key_le (pd.insert_key p l).
Proof.
  induction 1 as [|q l Hl IH Hq]; simpl.
  - by repeat constructor.
  - case_decide as Hpq.
    + by repeat constructor.
    + constructor; [done|].
      assert (pd.key_le q p) by (unfold pd.key_le in *; lia).
      destruct Hq as [|r l Hqr]; simpl; [by constructor|].
      case_decide; by constructor.
Qed.

Lemma sort_keys_Sorted l : Sorted pd.key_le (pd.sort_keys l).
Proof. induction l; simpl; [constructor | by apply insert_key_Sorted]. Qed.

(** Equal keys keep their order. *)
Lemma insert_key_stable p l :
  Forall (pd.key_le p) l → pd.insert_key p l = p :: l.
Proof. destruct 1; simpl; [done|]. by rewrite decide_True. Qed.

Lemma nargsort_Permutation keys : pd.nargsort keys ≡ₚ seq 0 (length keys).
Proof.
  unfold pd.nargsort.
  rewrite (fmap_Permutation fst _ _ (sort_keys_Permutation _)).
  rewrite split_Permutation. by rewrite fst_zip by (by rewrite length_seq).
Qed.

(** The keys read through the indexer: the present ones in ascending order,
    then the missing ones. *)
Lemma nargsort_sorted keys :
  ∃ ts k, (λ i, keys !!! i) <$> pd.nargsort keys = (Some <$> ts) ++ replicate k None
          ∧ Sorted Z.le ts.
Proof.
  unfold pd.nargsort.
  set (items := zip (seq 0 (length keys)) keys).
  set (non_nan := omap _ items). set (nan_idx := omap _ items).
  exists ((pd.sort_keys non_nan).*2), (length nan_idx).
  split.
  - rewrite fmap_app. f_equal.
    + rewrite <- !list_fmap_compose. apply Forall_fmap_ext, Forall_forall.
      intros [i t] Hq. rewrite sort_keys_Permutation in Hq.
      apply list_elem_of_omap in Hq as ([i' k] & Hp & Hf). simpl in Hf.
      destruct k as [t'|]; simplify_eq/=.
      apply items_lookup in Hp. by apply list_lookup_total_correct.
    + apply list_eq_same_length with (length nan_idx);
        [by rewrite length_replicate | by rewrite length_fmap |].
      intros j x y _ Hx Hy. apply lookup_replicate in Hy as [-> _].
      apply list_lookup_fmap_Some in Hx as (i & -> & Hi).
      apply list_elem_of_lookup_2, list_elem_of_omap in Hi as ([i' k] & Hp & Hf).
      simpl in Hf. destruct k; simplify_eq/=.
      apply items_lookup in Hp. by apply list_lookup_total_correct.
  - apply Sorted_fmap with (R1 := pd.key_le); [by intros ?? |].
    apply sort_keys_Sorted.
Qed.

(** ** The normal form of a successful fetch *)

Lemma getitem_DataFrame_of_eq feed c :
  pd.getitem (pd.DataFrame_of feed) c =
    if decide (has_column feed c) then Ok ((λ e, pd.cell e c) <$> feed)
    else Raise (KeyError (Name c)).
Proof.
  unfold pd.getitem, has_column. rewrite DataFrame_of_columns. by case_decide.
Qed.

Lemma getitem_setitem_eq df c col : pd.getitem (pd.setitem df c col) c = Ok col.
Proof. unfold pd.getitem, pd.setitem; simpl. by rewrite lookup_insert_eq. Qed.

Lemma getitem_setitem_ne df c c' col :
  c ≠ c' → pd.getitem (pd.setitem df c col) c' = pd.getitem df c'.
Proof. intros. unfold pd.getitem, pd.setitem; simpl. by rewrite lookup_insert_ne. Qed.

Lemma setitem_setitem df c col col' :
  pd.setitem (pd.setitem df c col) c col' = pd.setitem df c col'.
Proof. unfold pd.setitem; simpl. by rewrite insert_insert_eq. Qed.

Lemma cell_not_Timestamp (e : entry) c u : pd.cell e c ≠ Timestamp u.
Proof. unfold pd.cell. by destruct (e !! c) as [[]|]. Qed.

Section local_times.
Variable to_datetime_scalar : value → date_reading.

Abbreviation local_time := (local_time to_datetime_scalar).

Lemma local_time_Ok v t :
  (∀ u, v ≠ Timestamp u) →
  local_time v = Ok t
  ↔ (v = NA ∧ t = NA)
    ∨ (v ≠ NA ∧ to_datetime_scalar v = NotATime ∧ t = NA)
    ∨ ∃ u, v ≠ NA ∧ to_datetime_scalar v = Instant u
           ∧ pd.in_bounds u = true ∧ pd.in_bounds (u + TZ_OFFSET) = true
           ∧ t = Timestamp (u + TZ_OFFSET).
Proof.
  intros Hv. unfold local_time, pd.to_datetime1.
  destruct v as [|s|x|u]; simpl; [naive_solver| | |by destruct (Hv u)].
  all: destruct (to_datetime_scalar _) as [u| |] eqn:Hs; simpl;
    [|naive_solver|naive_solver].
  all: destruct (pd.in_bounds u) eqn:Hu; simpl.
  all: destruct (pd.in_bounds (u + TZ_OFFSET)) eqn:Hu'; simpl.
  all: split; [intros ?; simplify_eq; right; right; by eauto 10 | ].
  all: intros [[? ?]|[(_ & ? & ?)|(u' & _ & ? & ? & ? & ?)]]; congruence.
Qed.

Lemma local_time_datetime v t :
  local_time v = Ok t → pd.datetime1 t = Ok (instant t).
Proof.
  unfold local_time. intros (t0 & _ & Ht)%bind_Ok.
  destruct t0 as [| | |u]; simpl in Ht; try done; [by simplify_eq|].
  destruct (pd.in_bounds _); by simplify_eq.
Qed.

Lemma two_stage_Ok (cells ts : list value) :
  (ts0 ← pd.to_datetime to_datetime_scalar cells; pd.add_timedelta ts0 TZ_OFFSET) = Ok ts
  ↔ Forall2 (λ v t, local_time v = Ok t) cells ts.
Proof.
  unfold pd.to_datetime, pd.add_timedelta, local_time. rewrite bind_Ok.
  setoid_rewrite traverse_Ok. split.
  - intros (ts0 & H0 & H1). revert ts H1.
    induction H0 as [|v t0 cells ts0 Hv _ IH]; intros ts; inversion 1; subst;
      constructor; [by rewrite Hv | by apply IH].
  - induction 1 as [|v t cells ts Hv _ (ts0 & H0 & H1)].
    + exists []. split; constructor.
    + apply bind_Ok in Hv as (t0 & Ht0 & Ht). exists (t0 :: ts0).
      split; by constructor.
Qed.

End local_times.

Section normal_form.
Variable to_datetime_scalar : value → date_reading.
Variable floatify : string → option Q.

Abbreviation local_time := (local_time to_datetime_scalar).
Abbreviation unsorted := (unsorted floatify).
Abbreviation fetch_data_try := (fetch_data_try to_datetime_scalar floatify).
Abbreviation fetch_data := (fetch_data to_datetime_scalar floatify).

Lemma traverse_datetime ts keys :
  Forall (λ t, pd.datetime1 t = Ok (instant t)) ts →
  traverse pd.datetime1 ts = Ok keys ↔ keys = instant <$> ts.
Proof.
  intros Hts. rewrite (traverse_total _ instant) by done. naive_solver.
Qed.

(** A response that passes [raise_for_status] and carries a feed: the rest
    of the [try] block, step by step. *)
Lemma fetch_data_try_feed r feed :
  requests.raise_for_status r = Ok tt →
  content r = JsonObject (Some feed) →
  fetch_data_try (Received r) =
    if decide (has_column feed "created_at") then
      ts0 ← pd.to_datetime to_datetime_scalar ((λ e, pd.cell e "created_at") <$> feed);
      ts ← pd.add_timedelta ts0 TZ_OFFSET;
      if decide (has_column feed "field1") then
        if decide (has_column feed "field2") then
          keys ← traverse pd.datetime1 ts;
          Ok (pd.take (unsorted feed ts) (pd.nargsort keys))
        else Raise (KeyError (Name "field2"))
      else Raise (KeyError (Name "field1"))
    else Raise (KeyError (Name "created_at")).
Proof.
  intros Hst Hfeed. unfold fetch_data_try, requests.json; simpl.
  rewrite Hst, Hfeed; simpl.
  rewrite getitem_DataFrame_of_eq. case_decide; simpl; [|done].
  destruct (pd.to_datetime _ _) as [ts0|]; simpl; [|done].
  rewrite getitem_setitem_eq; simpl.
  destruct (pd.add_timedelta _ _) as [ts|]; simpl; [|done].
  rewrite !setitem_setitem.
  rewrite getitem_setitem_ne, getitem_DataFrame_of_eq by done.
  case_decide; simpl; [|done].
  rewrite !getitem_setitem_ne, getitem_DataFrame_of_eq by done.
  case_decide; simpl; [|done].
  unfold pd.sort_values.
  rewrite !getitem_setitem_ne, getitem_setitem_eq by done. done.
Qed.

Lemma fetch_data_try_Ok net df :
  fetch_data_try net = Ok df
  ↔ ∃ r feed ts,
      net = Received r
      ∧ requests.raise_for_status r = Ok tt
      ∧ content r = JsonObject (Some feed)
      ∧ has_column feed "created_at"
      ∧ has_column feed "field1"
      ∧ has_column feed "field2"
      ∧ Forall2 (λ e t, local_time (pd.cell e "created_at") = Ok t) feed ts
      ∧ df = pd.take (unsorted feed ts) (pd.nargsort (instant <$> ts)).
Proof.
  split.
  - intros H. destruct net as [|r]; [done|].
    destruct (requests.raise_for_status r) as [[]|e] eqn:Hst;
      [|by unfold fetch_data_try in H; simpl in H; rewrite Hst in H].
    destruct (content r) as [| |[feed|]] eqn:Hfeed;
      try by (unfold fetch_data_try, requests.json in H; simpl in H;
              rewrite Hst, Hfeed in H).
    rewrite (fetch_data_try_feed r feed) in H by done.
    case_decide as H0; [|done].
    apply bind_Ok in H as (ts0 & Hts0 & H). apply bind_Ok in H as (ts & Hts & H).
    case_decide as H1; [|done]. case_decide as H2; [|done].
    apply bind_Ok in H as (keys & Hkeys & [= <-]).
    assert (Hloc : Forall2 (λ v t, local_time v = Ok t)
                     ((λ e, pd.cell e "created_at") <$> feed) ts).
    { apply two_stage_Ok, bind_Ok. eauto. }
    apply traverse_datetime in Hkeys as ->.
    + exists r, feed, ts. by rewrite Forall2_fmap_l in Hloc.
    + clear -Hloc. induction Hloc; constructor; eauto using local_time_datetime.
  - intros (r & feed & ts & -> & Hst & Hfeed & H0 & H1 & H2 & Hloc & ->).
    rewrite (fetch_data_try_feed r feed) by done.
    rewrite decide_True by done.
    assert (Hcells : Forall2 (λ v t, local_time v = Ok t)
                       ((λ e, pd.cell e "created_at") <$> feed) ts)
      by (by apply Forall2_fmap_l).
    pose proof Hcells as Hstage.
    apply two_stage_Ok, bind_Ok in Hstage as (ts0 & Hts0 & Hts).
    rewrite Hts0; simpl. rewrite Hts; simpl. rewrite !decide_True by done.
    rewrite (traverse_total _ instant); [done|].
    clear -Hcells. induction Hcells; constructor; eauto using local_time_datetime.
Qed.

Lemma take_columns df idx c :
  columns (pd.take df idx) !! c
  = (λ col : list value, (λ i, col !!! i) <$> idx) <$> columns df !! c.
Proof. unfold pd.take; simpl. by rewrite lookup_fmap. Qed.

Lemma unsorted_created_at feed ts :
  columns (unsorted feed ts) !! "created_at" = Some ts.
Proof.
  unfold unsorted, pd.setitem; simpl.
  by rewrite !lookup_insert_ne, lookup_insert_eq by done.
Qed.

Lemma unsorted_field1 feed ts :
  columns (unsorted feed ts) !! "field1"
  = Some (pd.to_numeric floatify ((λ e, pd.cell e "field1") <$> feed)).
Proof.
  unfold unsorted, pd.setitem; simpl.
  by rewrite lookup_insert_ne, lookup_insert_eq by done.
Qed.

Lemma unsorted_field2 feed ts :
  columns (unsorted feed ts) !! "field2"
  = Some (pd.to_numeric floatify ((λ e, pd.cell e "field2") <$> feed)).
Proof. unfold unsorted, pd.setitem; simpl. by rewrite lookup_insert_eq. Qed.

Lemma unsorted_other feed ts c :
  c ≠ "created_at" → c ≠ "field1" → c ≠ "field2" →
  columns (unsorted feed ts) !! c = columns (pd.DataFrame_of feed) !! c.
Proof.
  intros. unfold unsorted, pd.setitem; simpl. by rewrite !lookup_insert_ne.
Qed.

Lemma seq_lookup_total_id n (idx : list nat) :
  Forall (λ i, (i < n)%nat) idx → (λ i, seq 0 n !!! i) <$> idx = idx.
Proof.
  intros H. rewrite <- (list_fmap_id idx) at 2. apply Forall_fmap_ext.
  eapply Forall_impl; [done|]. intros i Hi; simpl.
  apply list_lookup_total_correct. by rewrite lookup_seq_lt.
Qed.

Lemma nargsort_lt keys :
  Forall (λ i, (i < length keys)%nat) (pd.nargsort keys).
Proof.
  apply Forall_forall. intros i Hi. rewrite nargsort_Permutation in Hi.
  apply elem_of_seq in Hi. lia.
Qed.

(** The index of the sorted frame is the sort indexer itself: the label of
    a row is the position of its record in the feed. *)
Lemma sorted_index feed ts :
  length ts = length feed →
  index (pd.take (unsorted feed ts) (pd.nargsort (instant <$> ts)))
  = pd.nargsort (instant <$> ts).
Proof.
  intros Hlen. unfold pd.take; simpl. apply seq_lookup_total_id.
  rewrite <- Hlen, <- (length_fmap instant). apply nargsort_lt.
Qed.

Lemma fetch_data_Ok net df :
  fetch_data net = (df, []) ↔ fetch_data_try net = Ok df.
Proof.
  unfold fetch_data. destruct (fetch_data_try net) as [df'|[]]; naive_solver.
Qed.

(** Row by row: the sorted frame has one row per record of the feed, and
    the cells of a row are computed from the record its label names. *)
Lemma fetch_rows net df :
  fetch_data_try net = Ok df →
  ∃ feed, delivers net feed
    ∧ index df ≡ₚ seq 0 (length feed)
    ∧ (∀ c col, columns df !! c = Some col → length col = length feed)
    ∧ ∀ j i, index df !! j = Some i →
        ∃ e t, feed !! i = Some e
          ∧ local_time (pd.cell e "created_at") = Ok t
          ∧ cell_at df "created_at" j = Some t
          ∧ cell_at df "field1" j = Some (pd.to_numeric1 floatify (pd.cell e "field1"))
          ∧ cell_at df "field2" j = Some (pd.to_numeric1 floatify (pd.cell e "field2")).
Proof.
  intros (r & feed & ts & -> & Hst & Hfeed & _ & _ & _ & Hts & ->)%fetch_data_try_Ok.
  pose proof (Forall2_length _ _ _ Hts) as Hlen. symmetry in Hlen.
  exists feed. split; [by exists r|].
  rewrite sorted_index by done.
  assert (Hn : length (pd.nargsort (instant <$> ts)) = length feed).
  { by rewrite nargsort_Permutation, length_seq, length_fmap. }
  split; [|split].
  - by rewrite nargsort_Permutation, length_fmap, Hlen.
  - intros c col. rewrite take_columns.
    intros (col0 & _ & ->)%fmap_Some. by rewrite length_fmap.
  - intros j i Hj.
    assert (Hi : (i < length feed)%nat).
    { pose proof (nargsort_lt (instant <$> ts)) as Hlt.
      rewrite Forall_lookup in Hlt. apply Hlt in Hj.
      by rewrite length_fmap, Hlen in Hj. }
    destruct (lookup_lt_is_Some_2 feed i Hi) as [e He].
    destruct (Forall2_lookup_l _ _ _ _ _ Hts He) as (t & Ht & Hloc).
    exists e, t. split; [done|]. split; [done|].
    unfold cell_at. rewrite !take_columns.
    rewrite unsorted_created_at, unsorted_field1, unsorted_field2. simpl.
    rewrite !list_lookup_fmap, Hj. simpl.
    rewrite (list_lookup_total_correct _ _ _ Ht).
    unfold pd.to_numeric.
    rewrite !(list_lookup_total_correct _ i (pd.to_numeric1 floatify (pd.cell e _)))
      by (by rewrite !list_lookup_fmap, He).
    done.
Qed.

Lemma of_instant_lookup (ts : list value) i :
  Forall (λ t, pd.datetime1 t = Ok (instant t)) ts →
  ts !!! i = of_instant ((instant <$> ts) !!! i).
Proof.
  intros Hts. rewrite !list_lookup_total_alt, list_lookup_fmap.
  destruct (ts !! i) as [t|] eqn:Ht; simpl; [|done].
  rewrite Forall_lookup in Hts. specialize (Hts _ _ Ht). by destruct t.
Qed.

Lemma fetch_created_at_sorted net df :
  fetch_data_try net = Ok df →
  ∃ ts k, columns df !! "created_at" = Some ((Timestamp <$> ts) ++ replicate k NA)
          ∧ Sorted Z.le ts.
Proof.
  intros (r & feed & ts0 & -> & _ & _ & _ & _ & _ & Hts & ->)%fetch_data_try_Ok.
  assert (Hview : Forall (λ t, pd.datetime1 t = Ok (instant t)) ts0).
  { clear -Hts. induction Hts; constructor; eauto using local_time_datetime. }
  destruct (nargsort_sorted (instant <$> ts0)) as (ts & k & Heq & Hsorted).
  exists ts, k. split; [|done].
  rewrite take_columns, unsorted_created_at. simpl. f_equal.
  rewrite (list_fmap_ext _ (of_instant ∘ (λ i, (instant <$> ts0) !!! i)) _)
    by (intros; by apply of_instant_lookup).
  rewrite list_fmap_compose, Heq, fmap_app, <- list_fmap_compose, fmap_replicate.
  done.
Qed.

End normal_form.

Lemma Sorted_adjacent {A} (R : relation A) l i x y :
  Sorted R l → l !! i = Some x → l !! S i = Some y → R x y.
Proof.
  intros Hl. revert i. induction Hl as [|a l _ IH Hhd]; intros i; [done|].
  destruct i as [|i]; simpl.
  - intros [= ->] Hy. destruct Hhd; by simplify_eq/=.
  - apply IH.
Qed.

(** ** Ingestion *)

Section ingestion.
Variable to_datetime_scalar : value → date_reading.
Variable floatify : string → option Q.

Abbreviation local_time' := (local_time to_datetime_scalar).
Abbreviation fetch_data_try' := (fetch_data_try to_datetime_scalar floatify).
Abbreviation fetch_data' := (fetch_data to_datetime_scalar floatify).

Lemma fetch_data_failed net :
  (∃ df, fetch_data' net = (df, []) ∧ fetch_data_try' net = Ok df)
  ∨ (∃ n, fetch_data' net = (pd.empty_frame, [n])).
Proof.
  unfold fetch_data. destruct (fetch_data_try' net) as [df|[]]; eauto.
Qed.

(** C2: in every frame that [fetch_data] returns, whatever the order of
    the raw feed, two adjacent samples that carry timestamps [t] and [t']
    satisfy [t <= t']. The created_at column consists of the timestamps in
    non-decreasing order followed by the samples that have none (NaT: the
    records whose created_at is null, absent or read as no time). *)
Theorem fetch_data_sorted net :
  let col := timestamps (fetch_data' net).1 in
  (∃ ts k, col = (Timestamp <$> ts) ++ replicate k NA ∧ Sorted Z.le ts)
  ∧ (∀ i t t',
       col !! i = Some (Timestamp t) → col !! S i = Some (Timestamp t') → t ≤ t').
Proof.
  intros col.
  assert (Hcol : ∃ ts k, col = (Timestamp <$> ts) ++ replicate k NA ∧ Sorted Z.le ts).
  { subst col. destruct (fetch_data_failed net) as [(df & -> & Hdf)|(n & ->)].
    - apply fetch_created_at_sorted in Hdf as (ts & k & Hts & Hsorted).
      exists ts, k. unfold timestamps; simpl. by rewrite Hts.
    - exists [], 0%nat. split; [done | constructor]. }
  split; [done|]. destruct Hcol as (ts & k & Hcol & Hsorted).
  intros i t t' Hi Hi'. rewrite Hcol in Hi, Hi'.
  assert (Hlt : (S i < length ts)%nat).
  { destruct (decide (S i < length ts)%nat) as [|Hge]; [done|].
    rewrite lookup_app_r in Hi' by (rewrite length_fmap; lia).
    by apply lookup_replicate in Hi' as [? _]. }
  rewrite lookup_app_l, list_lookup_fmap in Hi, Hi' by (rewrite length_fmap; lia).
  apply fmap_Some in Hi as (x & Hx & [= ->]).
  apply fmap_Some in Hi' as (y & Hy & [= ->]).
  by apply (Sorted_adjacent Z.le ts i).
Qed.

(** C10: when [fetch_data] returns without a notice, the frame has
    exactly one row per record of the feed: its index is a permutation of
    the positions of the records, every column has the length of the feed,
    and the timestamp and the two readings of the row labelled [i] are
    computed from record [i] alone. *)
Theorem fetch_data_one_sample_per_entry net df :
  fetch_data' net = (df, []) →
  ∃ feed, delivers net feed
    ∧ index df ≡ₚ seq 0 (length feed)
    ∧ (∀ c col, columns df !! c = Some col → length col = length feed)
    ∧ ∀ j i, index df !! j = Some i →
        ∃ e t, feed !! i = Some e
          ∧ local_time' (pd.cell e "created_at") = Ok t
          ∧ cell_at df "created_at" j = Some t
          ∧ cell_at df "field1" j = Some (pd.to_numeric1 floatify (pd.cell e "field1"))
          ∧ cell_at df "field2" j = Some (pd.to_numeric1 floatify (pd.cell e "field2")).
Proof. intros Hdf%fetch_data_Ok. by apply fetch_rows. Qed.

Lemma TZ_OFFSET_hours u : u + TZ_OFFSET = u - 3 * ns_per_hour.
Proof. unfold TZ_OFFSET. lia. Qed.

(** C8: when [fetch_data] returns without a notice, every record of the
    feed has a row, and the timestamp of that row is the record's created_at
    read as a UTC instant, plus the offset of minus three hours. The row has
    no timestamp (NaT) when the record has no created_at or pandas reads it
    as no time, as it does the empty string. *)
Theorem created_at_is_utc_minus_3h net df :
  fetch_data' net = (df, []) →
  ∃ feed, delivers net feed
    ∧ ∀ i e, feed !! i = Some e →
        ∃ j, index df !! j = Some i
          ∧ (pd.cell e "created_at" = NA → cell_at df "created_at" j = Some NA)
          ∧ (pd.cell e "created_at" ≠ NA →
               (∃ u, to_datetime_scalar (pd.cell e "created_at") = Instant u
                     ∧ cell_at df "created_at" j
                       = Some (Timestamp (u - 3 * ns_per_hour)))
               ∨ (to_datetime_scalar (pd.cell e "created_at") = NotATime
                  ∧ cell_at df "created_at" j = Some NA)).
Proof.
  intros Hdf%fetch_data_Ok.
  destruct (fetch_rows _ _ _ _ Hdf) as (feed & Hnet & Hperm & _ & Hrows).
  exists feed. split; [done|]. intros i e He.
  assert (Hi : i ∈ index df).
  { rewrite Hperm. apply elem_of_seq. apply lookup_lt_Some in He. lia. }
  apply list_elem_of_lookup in Hi as (j & Hj). exists j. split; [done|].
  destruct (Hrows _ _ Hj) as (e' & t & He' & Ht & Hcell & _).
  rewrite He in He'. injection He' as <-. rewrite Hcell.
  apply local_time_Ok in Ht; [|intros u; apply cell_not_Timestamp].
  destruct Ht as [[Hv ->]|[(Hv & Hu & ->)|(u & Hv & Hu & _ & _ & ->)]].
  - split; [done|]. by intros [].
  - split; [done|]. intros _. by right.
  - split; [by intros ?|]. intros _. left. exists u. by rewrite TZ_OFFSET_hours.
Qed.

Lemma raise_for_status_Raise r :
  400 ≤ status_code r < 600 → requests.raise_for_status r = Raise RequestException.
Proof.
  intros H. unfold requests.raise_for_status.
  by rewrite (proj2 (Z.leb_le _ _)), (proj2 (Z.ltb_lt _ _)) by lia.
Qed.

Lemma raise_for_status_Ok r :
  ¬ (400 ≤ status_code r < 600) → requests.raise_for_status r = Ok tt.
Proof.
  intros H. unfold requests.raise_for_status.
  destruct (400 <=? status_code r) eqn:H1; [|done].
  destruct (status_code r <? 600) eqn:H2; [|done]. lia.
Qed.

(** C1, amended: [fetch_data] is a total function of what the network
    delivers. A transport failure or a status from 400 to 599 yields the
    empty frame with the notice of a fetch error; a JSON object without
    [feeds] under any other status yields the empty frame with the notice
    of a processing error; the two notices differ in their text, and every
    notice comes with the empty frame. *)
Theorem fetch_data_failures net :
  (fetch_failure net → fetch_data' net = (pd.empty_frame, [fetch_notice]))
  ∧ (schema_failure net → fetch_data' net = (pd.empty_frame, [schema_notice]))
  ∧ text fetch_notice ≠ text schema_notice
  ∧ ((fetch_data' net).2 ≠ [] →
       (fetch_data' net).1 = pd.empty_frame ∧ pd.empty (fetch_data' net).1 = true).
Proof.
  split; [|split; [|split]].
  - intros [->|(r & -> & Hst)]; [done|].
    unfold fetch_data, fetch_data_try; simpl.
    by rewrite raise_for_status_Raise.
  - intros (r & -> & Hst & Hfeed).
    unfold fetch_data, fetch_data_try, requests.json; simpl.
    by rewrite raise_for_status_Ok, Hfeed.
  - done.
  - destruct (fetch_data_failed net) as [(df & -> & _)|(n & ->)]; [done|].
    by intros _.
Qed.

(** *** One bad numeric member *)




Lemma cell_at_take U idx c j :
  cell_at (pd.take U idx) c j
  = col ← columns U !! c; i ← idx !! j; Some (col !!! i).
Proof.
  unfold cell_at. rewrite take_columns.
  destruct (columns U !! c) as [col|]; simpl; [|done].
  by rewrite list_lookup_fmap.
Qed.



End ingestion.

(** ** Analytics *)

Section scan.
Variable better : Q → Q → bool.
Hypothesis better_irrefl : ∀ x, better x x = false.
Hypothesis better_trans :
  ∀ x y z, better x y = true → better y z = true → better x z = true.
Hypothesis better_cotrans :
  ∀ x y z, better x y = true → better x z = true ∨ better z y = true.

Lemma better_asym x y : better x y = true → better y x = false.
Proof.
  intros Hxy. destruct (better y x) eqn:Hyx; [|done].
  by rewrite <- (better_irrefl x), (better_trans x y x).
Qed.

Lemma scan_is_Some best s xs :
  is_Some best → is_Some (pd.scan better best s xs).
Proof.
  revert best s. induction xs as [|[x|] xs IH]; intros best s Hbest; simpl; [done| |by apply IH].
  destruct best as [[ib b]|]; [|by apply IH].
  destruct (better x b); by apply IH.
Qed.

Lemma scan_None s xs :
  pd.scan better None s xs = None ↔ Forall (λ x, x = None) xs.
Proof.
  revert s. induction xs as [|[x|] xs IH]; intros s; simpl.
  - by split.
  - split; [|by inversion 1].
    intros H. by destruct (scan_is_Some (Some (s, x)) (S s) xs) as [? ?]; simplify_eq.
  - rewrite IH. split; [by constructor | by inversion 1].
Qed.

Lemma scan_spec best s xs i x :
  pd.scan better best s xs = Some (i, x) →
  (best = Some (i, x) ∧ ∀ k y, xs !! k = Some (Some y) → better y x = false)
  ∨ ∃ k, i = (s + k)%nat ∧ xs !! k = Some (Some x)
      ∧ (∀ ib b, best = Some (ib, b) → better x b = true)
      ∧ (∀ k' y, xs !! k' = Some (Some y) → better y x = false)
      ∧ (∀ k' y, (k' < k)%nat → xs !! k' = Some (Some y) → better x y = true).
Proof.
  revert best s. induction xs as [|[x0|] xs IH]; intros best s; simpl.
  - intros ->. left. by split.
  - assert (Hnew : pd.scan better (Some (s, x0)) (S s) xs = Some (i, x) →
              (∀ ib b, best = Some (ib, b) → better x0 b = true) →
              ∃ k, i = (s + k)%nat ∧ (Some x0 :: xs) !! k = Some (Some x)
                ∧ (∀ ib b, best = Some (ib, b) → better x b = true)
                ∧ (∀ k' y, (Some x0 :: xs) !! k' = Some (Some y) → better y x = false)
                ∧ (∀ k' y, (k' < k)%nat → (Some x0 :: xs) !! k' = Some (Some y)
                           → better x y = true)).
    { intros [[[= <- <-] Hall]|(k & -> & Hk & Hb & Hall & Hbefore)]%IH Hbest.
      - exists 0%nat. split; [lia|]. split; [done|]. split; [done|]. split.
        + intros [|k'] y; simpl; [by intros [= <-] | apply Hall].
        + lia.
      - pose proof (Hb _ _ eq_refl) as Hx0.
        exists (S k). split; [lia|]. split; [done|]. split; [|split].
        + intros ib b Hib. eapply better_trans; eauto.
        + intros [|k'] y; simpl; [intros [= <-]; by apply better_asym | apply Hall].
        + intros [|k'] y Hlt; simpl; [by intros [= <-] | apply Hbefore; lia]. }
    destruct best as [[ib b]|]; [|intros H; right; by apply Hnew].
    destruct (better x0 b) eqn:Hx0.
    + intros H; right. apply Hnew; [done|]. by intros ?? [= <- <-].
    + intros [[[= <- <-] Hall]|(k & -> & Hk & Hb & Hall & Hbefore)]%IH.
      * left. split; [done|]. intros [|k'] y; simpl; [by intros [= <-] | apply Hall].
      * pose proof (Hb _ _ eq_refl) as Hxb.
        assert (Hxx0 : better x x0 = true).
        { destruct (better_cotrans x b x0 Hxb) as [?|?]; [done | congruence]. }
        right. exists (S k). split; [lia|]. split; [done|]. split; [done|]. split.
        -- intros [|k'] y; simpl; [intros [= <-]; by apply better_asym | apply Hall].
        -- intros [|k'] y Hlt; simpl; [by intros [= <-] | apply Hbefore; lia].
  - intros [[-> Hall]|(k & -> & Hk & Hb & Hall & Hbefore)]%IH.
    + left. split; [done|]. intros [|k'] y; simpl; [done | apply Hall].
    + right. exists (S k). split; [lia|]. split; [done|]. split; [done|]. split.
      * intros [|k'] y; simpl; [done | apply Hall].
      * intros [|k'] y Hlt; simpl; [done | apply Hbefore; lia].
Qed.

(** The scan returns the first extreme, and nothing else is one. *)
Lemma scan_first xs i x :
  pd.scan better None 0 xs = Some (i, x) ↔ first_extreme better xs i x.
Proof.
  assert (Hspec : ∀ i x, pd.scan better None 0 xs = Some (i, x)
                         → first_extreme better xs i x).
  { intros i' x' [[[=] _]|(k & -> & Hk & _ & Hall & Hbefore)]%scan_spec.
    by split. }
  split; [apply Hspec|]. intros (Hi & Hall & Hbefore).
  destruct (pd.scan better None 0 xs) as [[i' x']|] eqn:Hscan.
  - destruct (Hspec _ _ eq_refl) as (Hi' & Hall' & Hbefore').
    destruct (Nat.lt_trichotomy i' i) as [Hlt|[->|Hlt]].
    + pose proof (Hbefore _ _ Hlt Hi'). pose proof (Hall' _ _ Hi). congruence.
    + congruence.
    + pose proof (Hbefore' _ _ Hlt Hi). pose proof (Hall _ _ Hi'). congruence.
  - apply scan_None in Hscan. rewrite Forall_lookup in Hscan.
    by specialize (Hscan _ _ Hi).
Qed.
End scan.

Lemma gtb_lt x y : pd.gtb x y = true ↔ (y < x)%Q.
Proof.
  unfold pd.gtb. rewrite negb_true_iff, <- not_true_iff_false, Qle_bool_iff.
  split; [apply Qnot_le_lt | apply Qlt_not_le].
Qed.

Lemma gtb_le x y : pd.gtb x y = false ↔ (x <= y)%Q.
Proof. unfold pd.gtb. by rewrite negb_false_iff, Qle_bool_iff. Qed.

Lemma ltb_lt x y : pd.ltb x y = true ↔ (x < y)%Q.
Proof. apply (gtb_lt y x). Qed.

Lemma ltb_le x y : pd.ltb x y = false ↔ (y <= x)%Q.
Proof. apply (gtb_le y x). Qed.

Lemma gtb_cotrans x y z :
  pd.gtb x y = true → pd.gtb x z = true ∨ pd.gtb z y = true.
Proof.
  rewrite !gtb_lt. intros Hyx.
  destruct (Qlt_le_dec z x) as [?|Hxz]; [by left|].
  right. by apply Qlt_le_trans with x.
Qed.

Lemma scan_max xs i x :
  pd.scan pd.gtb None 0 xs = Some (i, x) ↔ first_max xs i x.
Proof.
  rewrite scan_first.
  - unfold first_extreme, first_max.
    setoid_rewrite gtb_le. by setoid_rewrite gtb_lt.
  - intros y. apply gtb_le, Qle_refl.
  - intros a b c. rewrite !gtb_lt. intros ??. by apply Qlt_trans with b.
  - apply gtb_cotrans.
Qed.

Lemma scan_min xs i x :
  pd.scan pd.ltb None 0 xs = Some (i, x) ↔ first_min xs i x.
Proof.
  rewrite scan_first.
  - unfold first_extreme, first_min.
    setoid_rewrite ltb_le. by setoid_rewrite ltb_lt.
  - intros y. apply ltb_le, Qle_refl.
  - intros a b c. rewrite !ltb_lt. intros ??. by apply Qlt_trans with b.
  - intros a b c H. destruct (gtb_cotrans b a c H); auto.
Qed.

Lemma traverse_float col :
  float_column col → traverse pd.float1 col = Ok (reading <$> col).
Proof.
  intros Hcol. apply traverse_total. eapply Forall_impl; [done|].
  by intros v [->|(x & ->)].
Qed.

Lemma get_loc_lookup labels i l :
  NoDup labels → labels !! i = Some l → pd.get_loc labels l = Some i.
Proof.
  intros Hnd. revert i. induction Hnd as [|l' labels Hnotin _ IH]; intros i; [done|].
  destruct i as [|i]; simpl.
  - intros [= ->]. by rewrite decide_True.
  - intros Hi. rewrite decide_False.
    + by rewrite (IH _ Hi).
    + intros ->. by apply Hnotin, list_elem_of_lookup_2 with i.
Qed.

(** [df.loc[df[field].idxmax(), 'created_at']] when the scan found position
    [i]: the created_at cell at that position. *)
Lemma loc_at_position df times i :
  wf_frame df →
  columns df !! "created_at" = Some times →
  (i < length (index df))%nat →
  ∃ t, times !! i = Some t ∧ pd.loc df (index df !! i) "created_at" = Ok t.
Proof.
  intros [Hnd Hlen] Htimes Hi.
  destruct (lookup_lt_is_Some_2 (index df) i Hi) as [l Hl].
  destruct (lookup_lt_is_Some_2 times i) as [t Ht]; [by rewrite (Hlen _ _ Htimes)|].
  exists t. split; [done|]. rewrite Hl. unfold pd.loc.
  rewrite (get_loc_lookup _ _ _ Hnd Hl). unfold pd.getitem. rewrite Htimes. simpl.
  by rewrite Ht.
Qed.

Lemma extremes_Ok df field col times i x j y :
  wf_frame df →
  columns df !! field = Some col →
  float_column col →
  columns df !! "created_at" = Some times →
  pd.scan pd.gtb None 0 (reading <$> col) = Some (i, x) →
  pd.scan pd.ltb None 0 (reading <$> col) = Some (j, y) →
  ∃ t_max t_min, times !! i = Some t_max ∧ times !! j = Some t_min
    ∧ extremes df field
      = Ok {| max_temp := Num x; min_temp := Num y;
              max_temp_time := t_max; min_temp_time := t_min |}.
Proof.
  intros Hwf Hcol Hfloat Htimes Hmax Hmin.
  assert (Hlen : length (reading <$> col) = length (index df)).
  { rewrite length_fmap. by apply (proj2 Hwf) with field. }
  pose proof Hmax as (Hi & _)%scan_max. pose proof Hmin as (Hj & _)%scan_min.
  apply lookup_lt_Some in Hi, Hj. rewrite Hlen in Hi, Hj.
  destruct (loc_at_position df times i Hwf Htimes Hi) as (t_max & Ht_max & Hloc_max).
  destruct (loc_at_position df times j Hwf Htimes Hj) as (t_min & Ht_min & Hloc_min).
  exists t_max, t_min. split; [done|]. split; [done|].
  unfold extremes, pd.getitem. rewrite Hcol. simpl.
  rewrite traverse_float by done. simpl.
  unfold pd.idxmax, pd.idxmin, pd.max, pd.min. rewrite Hmax, Hmin. simpl.
  by rewrite Hloc_max, Hloc_min.
Qed.

(** C6: in a frame with unique labels and full columns, the extremes of a
    float column are found by a scan that skips the missing readings. If
    position [i] holds a reading [x] that no reading exceeds and that exceeds
    every reading before it, the maximum is [x], recorded at the timestamp of
    position [i]: among equal maxima the first position wins. The same holds
    for the minimum. *)
Theorem extremes_first_occurrence df field col times :
  wf_frame df →
  columns df !! field = Some col →
  float_column col →
  columns df !! "created_at" = Some times →
  (∀ i x, first_max (reading <$> col) i x →
     ∃ e, extremes df field = Ok e
          ∧ max_temp e = Num x ∧ times !! i = Some (max_temp_time e))
  ∧ (∀ j y, first_min (reading <$> col) j y →
       ∃ e, extremes df field = Ok e
            ∧ min_temp e = Num y ∧ times !! j = Some (min_temp_time e)).
Proof.
  intros Hwf Hcol Hfloat Htimes.
  assert (Hsome : ∀ better i x, (reading <$> col) !! i = Some (Some x)
                    → ∃ p, pd.scan better None 0 (reading <$> col) = Some p).
  { intros better i x Hi.
    destruct (pd.scan better None 0 (reading <$> col)) as [p|] eqn:Hscan; [by exists p|].
    apply scan_None in Hscan as Hall.
    rewrite Forall_lookup in Hall. by specialize (Hall _ _ Hi). }
  split.
  - intros i x Hmax. pose proof Hmax as (Hi & _).
    apply scan_max in Hmax. destruct (Hsome pd.ltb i x Hi) as ([j y] & Hmin).
    destruct (extremes_Ok df field col times i x j y) as (t & t' & Ht & _ & He); try done.
    eexists. split; [done|]. by split.
  - intros j y Hmin. pose proof Hmin as (Hj & _).
    apply scan_min in Hmin. destruct (Hsome pd.gtb j y Hj) as ([i x] & Hmax).
    destruct (extremes_Ok df field col times i x j y) as (t & t' & _ & Ht' & He); try done.
    eexists. split; [done|]. by split.
Qed.

(** A column without any reading: [idxmax] has no label to return and the
    lookup of the row raises. *)
Lemma extremes_all_null df field col :
  columns df !! field = Some col →
  Forall (λ v, v = NA) col →
  extremes df field = Raise (KeyError NaNLabel).
Proof.
  intros Hcol Hall. unfold extremes, pd.getitem. rewrite Hcol. simpl.
  rewrite traverse_float by (eapply Forall_impl; [done | by left]). simpl.
  assert (Hnone : ∀ better, pd.scan better None 0 (reading <$> col) = None).
  { intros better. apply scan_None, Forall_fmap.
    eapply Forall_impl; [done | by intros v ->]. }
  unfold pd.idxmax. by rewrite Hnone.
Qed.

Ltac Ztest :=
  repeat match goal with
    | |- context [?a <=? ?b] => destruct (Z.leb_spec a b)
    | |- context [?a <? ?b] => destruct (Z.ltb_spec a b)
    end; simpl; try lia.

Lemma iloc_first col v : head col = Some v → pd.iloc col 0 = Ok v.
Proof.
  destruct col as [|v' col]; [done|]. intros [= ->]. unfold pd.iloc.
  rewrite length_cons. Ztest. done.
Qed.

Lemma iloc_last col v : last col = Some v → pd.iloc col (-1) = Ok v.
Proof.
  intros Hv. rewrite last_lookup in Hv. pose proof (lookup_lt_Some _ _ _ Hv) as Hlt.
  unfold pd.iloc. Ztest.
  replace (Z.to_nat (-1 + Z.of_nat (length col))) with (Nat.pred (length col)) by lia.
  by rewrite Hv.
Qed.

Lemma iloc_second_last col w :
  col !! (length col - 2)%nat = Some w → (2 ≤ length col)%nat →
  pd.iloc col (-2) = Ok w.
Proof.
  intros Hw Hlen. unfold pd.iloc. Ztest.
  replace (Z.to_nat (-2 + Z.of_nat (length col))) with (length col - 2)%nat by lia.
  by rewrite Hw.
Qed.

Lemma float_column_lookup col i v :
  float_column col → col !! i = Some v → pd.float1 v = Ok (reading v).
Proof.
  intros Hcol Hv. unfold float_column in Hcol. rewrite Forall_lookup in Hcol.
  by destruct (Hcol _ _ Hv) as [->|(x & ->)].
Qed.

Lemma sub_float v w :
  pd.float1 v = Ok (reading v) → pd.float1 w = Ok (reading w) →
  ∃ d, pd.sub v w = Ok d ∧ pd.format_2f d = Ok tt ∧ (v = NA → d = NA).
Proof.
  intros Hv Hw. unfold pd.sub. rewrite Hv, Hw. simpl.
  eexists. split; [done|]. split.
  - by destruct (reading v), (reading w).
  - by intros ->.
Qed.

(** C7: the current reading of a sensor is the cell at the last position of
    its column, whatever that cell holds. When the column has at least two
    cells the change is that cell minus the cell before it; when the last
    cell is missing, both the current reading and the change are missing: no
    earlier sample is used in its place. *)
Theorem latest_is_last_position df field col v :
  columns df !! field = Some col →
  float_column col →
  last col = Some v →
  pd.iloc col (-1) = Ok v
  ∧ (∀ m, metric df field = Ok m →
       current_temp m = v ∧ (v = NA → delta_temp m = NA))
  ∧ ((2 ≤ length col)%nat →
       ∃ w d, col !! (length col - 2)%nat = Some w ∧ pd.sub v w = Ok d
         ∧ (v = NA → d = NA)
         ∧ metric df field = Ok {| current_temp := v; delta_temp := d |}).
Proof.
  intros Hcol Hfloat Hv.
  pose proof (iloc_last _ _ Hv) as Hlast.
  assert (Hfv : pd.float1 v = Ok (reading v)).
  { rewrite last_lookup in Hv. by eapply float_column_lookup. }
  assert (Hstart : metric df field
            = (previous ← pd.iloc col (-2);
               delta ← pd.sub v previous;
               _ ← pd.format_2f delta;
               Ok {| current_temp := v; delta_temp := delta |})).
  { unfold metric, pd.getitem, pd.format_2f. rewrite Hcol. simpl.
    rewrite Hlast. simpl. by rewrite Hfv. }
  split; [done|]. split.
  - intros m. rewrite Hstart. intros (w & Hw & Hm)%bind_Ok.
    apply bind_Ok in Hm as (d & Hd & Hm). apply bind_Ok in Hm as ([] & _ & [= <-]).
    split; [done|]. simpl. intros ->.
    unfold pd.sub in Hd. simpl in Hd. destruct (pd.float1 w); by simplify_eq/=.
  - intros Hlen.
    destruct (lookup_lt_is_Some_2 col (length col - 2)) as [w Hw]; [lia|].
    destruct (sub_float v w) as (d & Hd & Hfmt & HNA);
      [done | by eapply float_column_lookup |].
    exists w, d. split; [done|]. split; [done|]. split; [done|].
    rewrite Hstart, (iloc_second_last _ _ Hw Hlen). simpl.
    rewrite Hd. simpl. by rewrite Hfmt.
Qed.

(** With a single sample there is no previous position to read. *)
Lemma metric_single df field v :
  columns df !! field = Some [v] →
  pd.float1 v = Ok (reading v) →
  metric df field = Raise IndexError.
Proof.
  intros Hcol Hv. unfold metric, pd.getitem, pd.format_2f. rewrite Hcol. simpl.
  by rewrite Hv.
Qed.

Lemma Sorted_head_le ts first x :
  Sorted Z.le ts → head ts = Some first → x ∈ ts → first ≤ x.
Proof.
  intros Hs%Sorted_StronglySorted; [|apply _].
  destruct Hs as [|a ts _ Hall]; [done|]. intros [= ->].
  intros [->|Hx]%elem_of_cons; [done|].
  rewrite Forall_forall in Hall. by apply Hall.
Qed.

Lemma in_bounds_span first final :
  first ≤ final → final - first ≤ pd.Timestamp_max →
  pd.in_bounds (final - first) = true.
Proof.
  intros Hle Hmax. unfold pd.in_bounds.
  apply andb_true_intro. split; [apply Z.leb_le | by apply Z.leb_le].
  unfold pd.Timestamp_min. lia.
Qed.

(** C9: for a frame whose created_at column holds timestamps in
    non-decreasing order, the last one less than 2^63 nanoseconds after the
    first, the data range shows the first and the last timestamp of the
    column, and the number of days between them is their difference
    truncated to whole days, which is not negative. No other column is
    read. *)
Theorem range_first_last df ts first final :
  columns df !! "created_at" = Some (Timestamp <$> ts) →
  head ts = Some first →
  last ts = Some final →
  Sorted Z.le ts →
  final - first ≤ pd.Timestamp_max →
  range df = Ok {| first_timestamp := Timestamp first;
                   last_timestamp := Timestamp final;
                   days_passed := (final - first) `quot` ns_per_day |}
  ∧ 0 ≤ (final - first) `quot` ns_per_day
  ∧ ∀ df', columns df' !! "created_at" = columns df !! "created_at" →
           range df' = range df.
Proof.
  intros Hcol Hfirst Hlast Hsorted Hspan.
  assert (Hle : first ≤ final).
  { apply (Sorted_head_le ts); [done..|]. rewrite last_lookup in Hlast.
    by eapply list_elem_of_lookup_2. }
  assert (Hday : 0 < ns_per_day) by done.
  split; [|split].
  - unfold range, pd.getitem. rewrite Hcol. simpl.
    rewrite (iloc_first _ (Timestamp first)) by (by destruct ts; simplify_eq/=).
    simpl.
    rewrite (iloc_last _ (Timestamp final)) by (by rewrite fmap_last, Hlast).
    simpl. rewrite in_bounds_span by done.
    by rewrite Z.quot_div_nonneg by lia.
  - apply Z.quot_pos; lia.
  - intros df' Heq. unfold range, pd.getitem. by rewrite Heq.
Qed.

(** ** The Home page *)

Lemma empty_false df c col :
  index df ≠ [] → columns df !! c = Some col → pd.empty df = false.
Proof.
  intros Hidx Hcol. unfold pd.empty.
  rewrite bool_decide_eq_false_2 by done. apply bool_decide_eq_false_2.
  intros Heq. by rewrite Heq, lookup_empty in Hcol.
Qed.

(** C5 (the code departs from the claim): when no cell of field1 or of
    field2 holds a reading, the Home page of a non-empty frame does not
    complete: it raises, at the latest when the row of the maximum is looked
    up under the label NaN. *)
Theorem all_null_field_raises df field col :
  pd.empty df = false →
  field = "field1" ∨ field = "field2" →
  columns df !! field = Some col →
  Forall (λ v, v = NA) col →
  ∃ e, home df = Raise e.
Proof.
  intros Hne Hfield Hcol Hall.
  pose proof (extremes_all_null df field col Hcol Hall) as Hext.
  destruct (home df) as [h|e] eqn:Hhome; [exfalso | by exists e].
  unfold home in Hhome. rewrite Hne in Hhome. simpl in Hhome.
  apply bind_Ok in Hhome as (m1 & _ & H). apply bind_Ok in H as (p1 & _ & H).
  apply bind_Ok in H as (m2 & _ & H). apply bind_Ok in H as (p2 & _ & H).
  apply bind_Ok in H as (rg & _ & H). apply bind_Ok in H as (e1 & He1 & H).
  apply bind_Ok in H as ([] & _ & H). apply bind_Ok in H as (e2 & He2 & H).
  destruct Hfield as [-> | ->]; congruence.
Qed.

Section dashboard.
Variable to_datetime_scalar : value → date_reading.
Variable floatify : string → option Q.

Lemma to_numeric1_float v :
  pd.float1 (pd.to_numeric1 floatify v)
  = Ok (reading (pd.to_numeric1 floatify v)).
Proof. destruct v as [|s|x|t]; simpl; try done. by destruct (floatify s). Qed.

Lemma fetch_wf net df :
  fetch_data_try to_datetime_scalar floatify net = Ok df → wf_frame df.
Proof.
  intros (feed & _ & Hperm & Hlen & _)%fetch_rows. split.
  - rewrite Hperm. apply NoDup_seq.
  - intros c col Hcol. by rewrite (Hlen _ _ Hcol), Hperm, length_seq.
Qed.

(** The two sensor columns of a returned frame are float columns. *)
Lemma fetch_float_column net df field col :
  fetch_data_try to_datetime_scalar floatify net = Ok df →
  field = "field1" ∨ field = "field2" →
  columns df !! field = Some col →
  float_column col.
Proof.
  intros (r & feed & ts & _ & _ & _ & _ & _ & _ & _ & ->)%fetch_data_try_Ok Hfield.
  rewrite take_columns.
  assert (∃ cells, columns (unsorted floatify feed ts) !! field
                   = Some (pd.to_numeric floatify cells)) as [cells ->].
  { destruct Hfield as [-> | ->]; eexists;
      [apply unsorted_field1 | apply unsorted_field2]. }
  simpl. intros [= <-]. apply Forall_fmap, Forall_forall. intros i _. simpl.
  rewrite list_lookup_total_alt. unfold pd.to_numeric. rewrite list_lookup_fmap.
  destruct (cells !! i) as [v|]; simpl; [|by left].
  pose proof (to_numeric1_float v) as Hv.
  destruct (pd.to_numeric1 floatify v); naive_solver.
Qed.

(** C4 (the code departs from the claim): for every frame with exactly one
    sample that [fetch_data] returns, the Home page raises IndexError when
    it reads the position before the last one; neither the current reading
    nor a change is shown. *)
Theorem single_sample_raises net df :
  fetch_data to_datetime_scalar floatify net = (df, []) →
  length (index df) = 1%nat →
  home df = Raise IndexError
  ∧ main to_datetime_scalar floatify net = (Raise IndexError, []).
Proof.
  intros Hfetch Hone.
  assert (home df = Raise IndexError) as Hhome;
    [|split; [done|]; unfold main; by rewrite Hfetch, Hhome].
  apply fetch_data_Ok in Hfetch.
  destruct (fetch_rows _ _ _ _ Hfetch) as (feed & _ & Hperm & Hlen & Hrows).
  destruct (index df) as [|i [|? ?]] eqn:Hidx; try done.
  destruct (Hrows 0%nat i) as (e & t & _ & _ & _ & Hf1 & _); [done|].
  unfold cell_at in Hf1.
  destruct (columns df !! "field1") as [col|] eqn:Hcol; [|done]. simpl in Hf1.
  assert (Hcl : length col = 1%nat).
  { rewrite (Hlen _ _ Hcol). apply Permutation_length in Hperm.
    by rewrite length_seq in Hperm. }
  destruct col as [|v [|? ?]]; try done. injection Hf1 as ->.
  unfold home. rewrite (empty_false df "field1" _) by (by rewrite ?Hidx).
  simpl. by rewrite (metric_single df "field1" _ Hcol (to_numeric1_float _)).
Qed.

End dashboard.

(** * The properties on the example feeds *)


(** The end-to-end scenario: the frame and the statistics shown. *)
Example scenario_main :
  ref_main (good scenario_feed)
  = (Ok (Some
       {| sensor1 := {| current_temp := Num (45 # 2); delta_temp := Num (5 # 2) |};
          plot1 := ([Timestamp 1704056400000000000; Timestamp 1704142800000000000],
                    [Num 20; Num (45 # 2)]);
          sensor2 := {| current_temp := NA; delta_temp := NA |};
          plot2 := ([Timestamp 1704056400000000000; Timestamp 1704142800000000000],
                    [Num 21; NA]);
          data_range := {| first_timestamp := Timestamp 1704056400000000000;
                           last_timestamp := Timestamp 1704142800000000000;
                           days_passed := 1 |};
          extremes1 := {| max_temp := Num (45 # 2); min_temp := Num 20;
                          max_temp_time := Timestamp 1704142800000000000;
                          min_temp_time := Timestamp 1704056400000000000 |};
          extremes2 := {| max_temp := Num 21; min_temp := Num 21;
                          max_temp_time := Timestamp 1704056400000000000;
                          min_temp_time := Timestamp 1704056400000000000 |} |}),
     []).
Proof. vm_compute. reflexivity. Qed.

Example scenario_local_times :
  Reference.iso8601 "2023-12-31T21:00:00Z" = Some 1704056400000000000
  ∧ Reference.iso8601 "2024-01-01T21:00:00Z" = Some 1704142800000000000
  ∧ timestamps scenario_frame
    = [Timestamp 1704056400000000000; Timestamp 1704142800000000000].
Proof. vm_compute. done. Qed.

(** The failure scenario: a response with status 500. *)
Example failure_main body :
  ref_main (Received {| status_code := 500; content := body |})
  = (Ok None, [fetch_notice]).
Proof. reflexivity. Qed.

(** An empty feed is reported as a processing error. *)
Example empty_feed_main :
  ref_main (good [])
  = (Ok None, [{| text := "Error processing ThingSpeak data: ";
                  cause := KeyError (Name "created_at") |}]).
Proof. vm_compute. reflexivity. Qed.

Ltac float_cells :=
  unfold float_column;
  repeat (apply List.Forall_cons;
          [first [left; reflexivity | right; eexists; reflexivity]|]);
  apply List.Forall_nil.

(** A feed that arrives in reverse order comes out in ascending order. *)
Example reversed_feed_sorted :
  timestamps tie_frame
  = [Timestamp 1704056400000000000; Timestamp 1704142800000000000;
     Timestamp 1704229200000000000]
  ∧ index tie_frame = [2; 1; 0]%nat.
Proof. vm_compute. done. Qed.

(** A record without created_at has no timestamp and is placed last. *)
Example undated_record_last :
  timestamps (ref_fetch_data (good undated_feed)).1
  = [Timestamp 1704056400000000000; Timestamp 1704142800000000000; NA].
Proof. vm_compute. done. Qed.

(** C1 as stated fails on a status that is neither 2xx nor an error for
    [raise_for_status]: the response with status 300 is processed like a
    successful one, and its frame is not empty. *)
Lemma non_2xx_status_is_processed :
  ¬ (∀ r, ¬ (200 ≤ status_code r < 300) →
          pd.empty (ref_fetch_data (Received r)).1 = true).
Proof.
  intros H. specialize (H multiple_choices).
  assert (Hst : ¬ (200 ≤ status_code multiple_choices < 300)) by (simpl; lia).
  apply H in Hst. vm_compute in Hst. discriminate.
Qed.

Example multiple_choices_frame :
  ref_fetch_data (Received multiple_choices) = (scenario_frame, []).
Proof. vm_compute. reflexivity. Qed.

Lemma fetch_data_failures_witness :
  ref_fetch_data (Received {| status_code := 503; content := NotJson |})
  = (pd.empty_frame, [fetch_notice])
  ∧ ref_fetch_data (Received {| status_code := 200; content := JsonObject None |})
    = (pd.empty_frame, [schema_notice]).
Proof.
  split.
  - apply (proj1 (fetch_data_failures Reference.to_datetime_scalar Reference.decimal _)).
    right. eexists. split; [reflexivity|]. simpl. lia.
  - apply (proj1 (proj2 (fetch_data_failures Reference.to_datetime_scalar
                           Reference.decimal _))).
    eexists. split; [reflexivity|]. split; [simpl; lia | reflexivity].
Defined.


Lemma single_sample_raises_witness :
  home single_frame = Raise IndexError
  ∧ ref_main (good single_feed) = (Raise IndexError, []).
Proof.
  apply (single_sample_raises Reference.to_datetime_scalar Reference.decimal
           (good single_feed) single_frame).
  - vm_compute. reflexivity.
  - vm_compute. reflexivity.
Defined.

Lemma all_null_field_raises_witness : ∃ e, home all_null_frame = Raise e.
Proof.
  apply (all_null_field_raises all_null_frame "field1" [NA; NA]).
  - vm_compute. reflexivity.
  - left. reflexivity.
  - vm_compute. reflexivity.
  - repeat constructor.
Defined.

(** The exception that the all-null feed ends in. *)
Example all_null_main :
  ref_main (good all_null_feed) = (Raise (KeyError NaNLabel), []).
Proof. vm_compute. reflexivity. Qed.

Lemma tie_frame_wf : wf_frame tie_frame.
Proof.
  apply (fetch_wf Reference.to_datetime_scalar Reference.decimal (good tie_feed)).
  vm_compute. reflexivity.
Qed.

Lemma extremes_first_occurrence_witness :
  ∃ e, extremes tie_frame "field1" = Ok e
       ∧ max_temp e = Num 9
       ∧ [Timestamp 1704056400000000000; Timestamp 1704142800000000000;
          Timestamp 1704229200000000000] !! 1%nat = Some (max_temp_time e).
Proof.
  apply (proj1 (extremes_first_occurrence tie_frame "field1"
                  [Num 5; Num 9; Num 9]
                  [Timestamp 1704056400000000000; Timestamp 1704142800000000000;
                   Timestamp 1704229200000000000]
                  tie_frame_wf
                  ltac:(vm_compute; reflexivity)
                  ltac:(float_cells)
                  ltac:(vm_compute; reflexivity))).
  split; [reflexivity|]. split.
  - intros [|[|[|k]]] y; simpl; intros [= <-]; unfold Qle; simpl; lia.
  - intros [|k] y Hk; [|lia]. simpl. intros [= <-]. unfold Qlt; simpl; lia.
Defined.

(** Values 5, 9, 9 at three successive instants: the maximum 9 is recorded
    at the second instant, the minimum 5 at the first. *)
Example tie_extremes :
  extremes tie_frame "field1"
  = Ok {| max_temp := Num 9; min_temp := Num 5;
          max_temp_time := Timestamp 1704142800000000000;
          min_temp_time := Timestamp 1704056400000000000 |}.
Proof. vm_compute. reflexivity. Qed.

Lemma latest_is_last_position_witness :
  pd.iloc [Num 21; Num 23; NA] (-1) = Ok NA
  ∧ (∀ m, metric null_last_frame "field2" = Ok m →
       current_temp m = NA ∧ (NA = NA → delta_temp m = NA))
  ∧ ((2 ≤ length [Num 21; Num 23; NA])%nat →
       ∃ w d, [Num 21; Num 23; NA] !! (length [Num 21; Num 23; NA] - 2)%nat = Some w
         ∧ pd.sub NA w = Ok d
         ∧ (NA = NA → d = NA)
         ∧ metric null_last_frame "field2" = Ok {| current_temp := NA; delta_temp := d |}).
Proof.
  apply (latest_is_last_position null_last_frame "field2" [Num 21; Num 23; NA] NA).
  - vm_compute. reflexivity.
  - float_cells.
  - reflexivity.
Defined.

(** The last reading of sensor 2 is missing although earlier ones exist:
    both the current reading and the change are missing. *)
Example null_last_metric :
  metric null_last_frame "field2" = Ok {| current_temp := NA; delta_temp := NA |}.
Proof. vm_compute. reflexivity. Qed.

Lemma created_at_is_utc_minus_3h_witness :
  ∃ feed, delivers (good scenario_feed) feed
    ∧ ∀ i e, feed !! i = Some e →
        ∃ j, index scenario_frame !! j = Some i
          ∧ (pd.cell e "created_at" = NA → cell_at scenario_frame "created_at" j = Some NA)
          ∧ (pd.cell e "created_at" ≠ NA →
               (∃ u, Reference.to_datetime_scalar (pd.cell e "created_at") = Instant u
                     ∧ cell_at scenario_frame "created_at" j
                       = Some (Timestamp (u - 3 * ns_per_hour)))
               ∨ (Reference.to_datetime_scalar (pd.cell e "created_at") = NotATime
                  ∧ cell_at scenario_frame "created_at" j = Some NA)).
Proof.
  apply (created_at_is_utc_minus_3h Reference.to_datetime_scalar Reference.decimal
           (good scenario_feed) scenario_frame).
  vm_compute. reflexivity.
Defined.

Lemma range_first_last_witness :
  range scenario_frame
  = Ok {| first_timestamp := Timestamp 1704056400000000000;
          last_timestamp := Timestamp 1704142800000000000;
          days_passed := (1704142800000000000 - 1704056400000000000) `quot` ns_per_day |}
  ∧ 0 ≤ (1704142800000000000 - 1704056400000000000) `quot` ns_per_day
  ∧ ∀ df', columns df' !! "created_at" = columns scenario_frame !! "created_at" →
           range df' = range scenario_frame.
Proof.
  apply (range_first_last scenario_frame
           [1704056400000000000; 1704142800000000000]).
  - vm_compute. reflexivity.
  - reflexivity.
  - reflexivity.
  - repeat constructor. lia.
  - vm_compute. discriminate.
Defined.

(** C9 as stated fails when the last timestamp is 2^63 nanoseconds or more
    after the first: the difference of the two is no Timedelta, and the data
    range of the feed that spans the years 1700 to 2000 raises. *)
Lemma range_wide_span_raises :
  ¬ (∀ df ts first final,
       columns df !! "created_at" = Some (Timestamp <$> ts) →
       head ts = Some first →
       last ts = Some final →
       Sorted Z.le ts →
       range df = Ok {| first_timestamp := Timestamp first;
                        last_timestamp := Timestamp final;
                        days_passed := (final - first) `quot` ns_per_day |}).
Proof.
  intros H.
  specialize (H wide_frame [-8520346800000000000; 946674000000000000]
                (-8520346800000000000) 946674000000000000).
  assert (Hr : range wide_frame = Raise OutOfBoundsDatetime)
    by (vm_compute; reflexivity).
  rewrite Hr in H. discriminate H.
  - vm_compute. reflexivity.
  - reflexivity.
  - reflexivity.
  - repeat constructor. lia.
Qed.

(** The Home page of that feed: the fetch succeeds and the page raises. *)
Example wide_main :
  ref_fetch_data (good wide_feed) = (wide_frame, [])
  ∧ timestamps wide_frame
    = [Timestamp (-8520346800000000000); Timestamp 946674000000000000]
  ∧ ref_main (good wide_feed) = (Raise OutOfBoundsDatetime, []).
Proof. vm_compute. done. Qed.

(** A record with an empty created_at is kept, without a timestamp, and is
    placed last. *)
Example blank_date_last :
  ref_fetch_data (good blank_date_feed) = (blank_date_frame, [])
  ∧ index blank_date_frame = [2; 1; 0]%nat
  ∧ timestamps blank_date_frame
    = [Timestamp 1704056400000000000; Timestamp 1704142800000000000; NA].
Proof. vm_compute. done. Qed.

(** The Home page of that feed raises when it formats the last timestamp. *)
Example blank_date_main :
  ref_main (good blank_date_feed) = (Raise ValueError, []).
Proof. vm_compute. reflexivity. Qed.

(** Equal keys keep the order of the feed, missing keys come last. *)
Example nargsort_ties :
  pd.nargsort [Some 5; Some 5; None; Some 5; Some 1] = [4; 0; 1; 3; 2]%nat.
Proof. vm_compute. reflexivity. Qed.

(** The reference readers on some strings. *)
Example reference_decimal :
  Reference.decimal "5." = Some 5%Q
  ∧ Reference.decimal " +1.5e1 " = Some 15%Q
  ∧ Reference.decimal "-.5" = Some (-1 # 2)%Q
  ∧ Reference.decimal "2.5E-1" = Some (1 # 4)%Q
  ∧ Reference.decimal "abc" = None
  ∧ Reference.decimal "." = None
  ∧ Reference.decimal "" = None.
Proof. vm_compute. done. Qed.

Example reference_dates :
  Reference.iso8601 "2024-02-29T00:00:00Z" = Some 1709164800000000000
  ∧ Reference.iso8601 "2024-02-30T00:00:00Z" = None
  ∧ Reference.iso8601 "2023-02-29T00:00:00Z" = None
  ∧ Reference.to_datetime_scalar (Str "") = NotATime
  ∧ Reference.to_datetime_scalar (Str "NaT") = NotATime
  ∧ Reference.to_datetime_scalar (Str "yesterday") = Unreadable.
Proof. vm_compute. done. Qed.

Lemma fetch_data_one_sample_per_entry_witness :
  ∃ feed, delivers (good scenario_feed) feed
    ∧ index scenario_frame ≡ₚ seq 0 (length feed)
    ∧ (∀ c col, columns scenario_frame !! c = Some col → length col = length feed)
    ∧ ∀ j i, index scenario_frame !! j = Some i →
        ∃ e t, feed !! i = Some e
          ∧ local_time Reference.to_datetime_scalar (pd.cell e "created_at") = Ok t
          ∧ cell_at scenario_frame "created_at" j = Some t
          ∧ cell_at scenario_frame "field1" j
            = Some (pd.to_numeric1 Reference.decimal (pd.cell e "field1"))
          ∧ cell_at scenario_frame "field2" j
            = Some (pd.to_numeric1 Reference.decimal (pd.cell e "field2")).
Proof.
  apply (fetch_data_one_sample_per_entry Reference.to_datetime_scalar Reference.decimal
           (good scenario_feed) scenario_frame).
  vm_compute. reflexivity.
Defined.


(** * Further properties *)

(** ** The outcomes of a fetch *)

Lemma traverse_Raise {A B} (f : A → result B) l e :
  traverse f l = Raise e → ∃ x, x ∈ l ∧ f x = Raise e.
Proof.
  induction l as [|x l IH]; simpl; [done|].
  destruct (f x) as [y|e'] eqn:Hx; simpl.
  - destruct (traverse f l) as [k|e'']; simpl; [done|].
    intros [= ->]. destruct IH as (x' & Hx' & Hf); [done|].
    exists x'. split; [by right | done].
  - intros [= ->]. exists x. split; [by left | done].
Qed.

Lemma traverse_not_Ok {A B} (f : A → result B) l :
  Exists (λ x, ∀ y, f x ≠ Ok y) l → ∀ k, traverse f l ≠ Ok k.
Proof.
  intros Hex k Hk. apply traverse_Ok in Hk.
  apply Exists_exists in Hex as (x & Hx & Hf).
  apply list_elem_of_lookup in Hx as (i & Hi).
  destruct (Forall2_lookup_l _ _ _ _ _ Hk Hi) as (y & _ & Hy). by apply (Hf y).
Qed.

Section outcomes.
Variable to_datetime_scalar : value → date_reading.
Variable floatify : string → option Q.

(** X1: when no record of the delivered feed has a created_at member, and
    in particular when the feed is empty, [fetch_data] returns the empty
    frame with the notice of a processing error that names created_at. *)
Theorem fetch_data_no_created_at net feed :
  delivers net feed →
  ¬ has_column feed "created_at" →
  fetch_data to_datetime_scalar floatify net
  = (pd.empty_frame, [processing_notice "created_at"]).
Proof.
  intros (r & -> & Hst & Hfeed) Hno. unfold fetch_data.
  rewrite (fetch_data_try_feed _ _ r feed Hst Hfeed).
  by rewrite decide_False.
Qed.

(** X2: when every created_at of the delivered feed is readable but field1
    or field2 is a member of no record, [fetch_data] returns the empty frame
    with the notice of a processing error that names the first of the two
    that is missing. *)
Theorem fetch_data_no_field net feed :
  delivers net feed →
  has_column feed "created_at" →
  Forall (readable to_datetime_scalar) feed →
  ¬ (has_column feed "field1" ∧ has_column feed "field2") →
  fetch_data to_datetime_scalar floatify net
  = (pd.empty_frame,
     [processing_notice
        (if decide (has_column feed "field1") then "field2" else "field1")]).
Proof.
  intros (r & -> & Hst & Hfeed) Hca Hread Hno. unfold fetch_data.
  rewrite (fetch_data_try_feed _ _ r feed Hst Hfeed).
  rewrite decide_True by done.
  assert (∃ ts, Forall2 (λ v t, local_time to_datetime_scalar v = Ok t)
                  ((λ e, pd.cell e "created_at") <$> feed) ts) as [ts Hts].
  { clear -Hread. induction Hread as [|e feed [t Ht] _ [ts IH]].
    - exists []. constructor.
    - exists (t :: ts). by constructor. }
  apply two_stage_Ok, bind_Ok in Hts as (ts0 & -> & Hts). simpl. rewrite Hts. simpl.
  destruct (decide (has_column feed "field1")) as [H1|H1]; [|done].
  by rewrite decide_False by tauto.
Qed.

(** X3: when the delivered feed has a created_at column and some created_at
    is not readable, the whole fetch is given up, whatever the other records
    and the sensor members are: [fetch_data] returns the empty frame with the
    notice of an unexpected error, caused by a ValueError (no date), by an
    out-of-bounds date, or by an OverflowError (a date that the shift takes
    out of bounds). *)
Theorem fetch_data_unreadable_date net feed :
  delivers net feed →
  has_column feed "created_at" →
  Exists (λ e, ¬ readable to_datetime_scalar e) feed →
  ∃ e, (e = ValueError ∨ e = OutOfBoundsDatetime ∨ e = OverflowError)
       ∧ fetch_data to_datetime_scalar floatify net
         = (pd.empty_frame, [unexpected_notice e]).
Proof.
  intros (r & -> & Hst & Hfeed) Hca Hbad. unfold fetch_data.
  rewrite (fetch_data_try_feed _ _ r feed Hst Hfeed).
  rewrite decide_True by done.
  destruct (pd.to_datetime to_datetime_scalar _) as [ts0|e] eqn:Hts0; simpl.
  - destruct (pd.add_timedelta ts0 TZ_OFFSET) as [ts|e] eqn:Hts; simpl.
    + exfalso. apply Exists_exists in Hbad as (e & He & Hno).
      assert (Hcells : Forall2 (λ v t, local_time to_datetime_scalar v = Ok t)
                         ((λ e, pd.cell e "created_at") <$> feed) ts).
      { apply two_stage_Ok, bind_Ok. eauto. }
      apply Forall2_fmap_l in Hcells.
      apply list_elem_of_lookup in He as (i & Hi).
      destruct (Forall2_lookup_l _ _ _ _ _ Hcells Hi) as (t & _ & Ht).
      apply Hno. by exists t.
    + apply traverse_Raise in Hts as (t0 & Ht0 & Hraise).
      apply traverse_Ok in Hts0.
      apply list_elem_of_lookup in Ht0 as (i & Hi).
      destruct (Forall2_lookup_r _ _ _ _ _ Hts0 Hi) as (v & _ & Hv).
      assert (He : e = OverflowError);
        [|exists e; split; [by right; right|]; by rewrite He].
      unfold pd.to_datetime1 in Hv.
      destruct v as [|s|x|u]; simplify_eq/=.
      * destruct (to_datetime_scalar _); simplify_eq/=.
        destruct (pd.in_bounds _); simplify_eq/=.
        by destruct (pd.in_bounds _); simplify_eq/=.
      * destruct (to_datetime_scalar _); simplify_eq/=.
        destruct (pd.in_bounds _); simplify_eq/=.
        by destruct (pd.in_bounds _); simplify_eq/=.
      * by destruct (pd.in_bounds _); simplify_eq/=.
  - apply traverse_Raise in Hts0 as (v & _ & Hraise).
    assert (He : e = ValueError ∨ e = OutOfBoundsDatetime);
      [|exists e; split; [tauto|]; by destruct He as [-> | ->]].
    unfold pd.to_datetime1 in Hraise.
    destruct v as [|s|x|u]; simplify_eq/=.
    all: destruct (to_datetime_scalar _); simplify_eq/=; [|by left].
    all: destruct (pd.in_bounds _); simplify_eq/=; by right.
Qed.

(** X4: [fetch_data] returns a frame without a notice exactly when the
    network delivers a feed in which created_at, field1 and field2 are each a
    member of some record and every created_at is readable: missing, read as
    no time, or read as an instant within bounds before and after the shift.
    The values of field1 and field2 play no part. *)
Theorem fetch_data_succeeds_iff net :
  (∃ df, fetch_data to_datetime_scalar floatify net = (df, []))
  ↔ ∃ feed, delivers net feed
      ∧ has_column feed "created_at"
      ∧ has_column feed "field1"
      ∧ has_column feed "field2"
      ∧ Forall (readable to_datetime_scalar) feed.
Proof.
  split.
  - intros (df & Hdf). apply fetch_data_Ok, fetch_data_try_Ok in Hdf
      as (r & feed & ts & -> & Hst & Hfeed & H0 & H1 & H2 & Hts & _).
    exists feed. split; [by exists r|]. repeat (split; [done|]).
    clear -Hts. induction Hts; constructor; [by eexists | done].
  - intros (feed & (r & -> & Hst & Hfeed) & H0 & H1 & H2 & Hread).
    assert (∃ ts, Forall2 (λ e t, local_time to_datetime_scalar
                                    (pd.cell e "created_at") = Ok t) feed ts)
      as [ts Hts].
    { clear -Hread. induction Hread as [|e feed [t Ht] _ [ts IH]].
      - exists []. constructor.
      - exists (t :: ts). by constructor. }
    eexists. apply fetch_data_Ok, fetch_data_try_Ok.
    exists r, feed, ts. by repeat split.
Qed.

(** X5: whenever [fetch_data] hands a notice to the page, the Home page
    takes its "No data available" branch: [main] completes, shows no
    statistics and raises nothing, whatever went wrong in the fetch. *)
Theorem main_after_failed_fetch net df n notices :
  fetch_data to_datetime_scalar floatify net = (df, n :: notices) →
  main to_datetime_scalar floatify net = (Ok None, [n])
  ∧ notices = [] ∧ df = pd.empty_frame.
Proof.
  intros Hfetch. unfold main. rewrite Hfetch.
  destruct (fetch_data_failed to_datetime_scalar floatify net)
    as [(df' & Heq & _)|(n' & Heq)]; rewrite Heq in Hfetch; [done|].
  by injection Hfetch as <- <- <-.
Qed.

End outcomes.

(** ** When the Home page completes *)

Lemma iloc_last_inv col v : pd.iloc col (-1) = Ok v → last col = Some v.
Proof.
  unfold pd.iloc. rewrite last_lookup. Ztest; try done.
  replace (Z.to_nat (-1 + Z.of_nat (length col))) with (Nat.pred (length col)) by lia.
  by destruct (col !! _); intros [= ->].
Qed.

Lemma iloc_first_inv col v : pd.iloc col 0 = Ok v → head col = Some v.
Proof.
  unfold pd.iloc. Ztest; try done. destruct col; [done|]. by intros [= ->].
Qed.

Lemma iloc_second_last_inv col v : pd.iloc col (-2) = Ok v → (2 ≤ length col)%nat.
Proof. unfold pd.iloc. Ztest; done. Qed.

Lemma metric_Ok df field col :
  columns df !! field = Some col →
  float_column col →
  (2 ≤ length col)%nat →
  ∃ m, metric df field = Ok m.
Proof.
  intros Hcol Hfloat Hlen.
  destruct (lookup_lt_is_Some_2 col (Nat.pred (length col))) as [v Hv]; [lia|].
  destruct (lookup_lt_is_Some_2 col (length col - 2)) as [w Hw]; [lia|].
  pose proof (float_column_lookup _ _ _ Hfloat Hv) as Hfv.
  pose proof (float_column_lookup _ _ _ Hfloat Hw) as Hfw.
  destruct (sub_float v w Hfv Hfw) as (d & Hd & Hfmt & _).
  rewrite <- last_lookup in Hv.
  eexists. unfold metric, pd.getitem, pd.format_2f. rewrite Hcol. simpl.
  rewrite (iloc_last _ _ Hv). simpl. rewrite Hfv. simpl.
  rewrite (iloc_second_last _ _ Hw Hlen). simpl. rewrite Hd. simpl.
  unfold pd.format_2f in Hfmt. by rewrite Hfmt.
Qed.

Lemma metric_Ok_inv df field m :
  metric df field = Ok m →
  ∃ col, columns df !! field = Some col ∧ (2 ≤ length col)%nat.
Proof.
  unfold metric, pd.getitem. destruct (columns df !! field) as [col|]; [|done].
  simpl. intros (v & _ & H)%bind_Ok. apply bind_Ok in H as ([] & _ & H).
  apply bind_Ok in H as (w & Hw & _). exists col. split; [done|].
  by apply iloc_second_last_inv in Hw.
Qed.

(** The data range of a frame whose created_at column starts and ends with
    a timestamp: it is shown when the two are a Timedelta apart. *)
Lemma range_span df col a b :
  columns df !! "created_at" = Some col →
  head col = Some (Timestamp a) →
  last col = Some (Timestamp b) →
  range df
  = if pd.in_bounds (b - a)
    then Ok {| first_timestamp := Timestamp a; last_timestamp := Timestamp b;
               days_passed := (b - a) `div` ns_per_day |}
    else Raise OutOfBoundsDatetime.
Proof.
  intros Hcol Ha Hb. unfold range, pd.getitem. rewrite Hcol. simpl.
  rewrite (iloc_first _ _ Ha). simpl. rewrite (iloc_last _ _ Hb). simpl.
  by destruct (pd.in_bounds (b - a)).
Qed.

Lemma range_eq df col a b :
  columns df !! "created_at" = Some col →
  head col = Some (Timestamp a) →
  last col = Some (Timestamp b) →
  pd.in_bounds (b - a) = true →
  range df = Ok {| first_timestamp := Timestamp a; last_timestamp := Timestamp b;
                   days_passed := (b - a) `div` ns_per_day |}.
Proof.
  intros Hcol Ha Hb Hspan. by rewrite (range_span df col a b), Hspan.
Qed.

Lemma range_Ok_inv df r :
  range df = Ok r →
  ∃ col a b, columns df !! "created_at" = Some col
    ∧ head col = Some (Timestamp a) ∧ last col = Some (Timestamp b)
    ∧ pd.in_bounds (b - a) = true.
Proof.
  unfold range, pd.getitem. destruct (columns df !! "created_at") as [col|]; [|done].
  simpl. intros (v & Hv & H)%bind_Ok. apply bind_Ok in H as (w & Hw & H).
  apply bind_Ok in H as ([] & Hfv & H). apply bind_Ok in H as ([] & Hfw & H).
  apply bind_Ok in H as (d & Hd & _).
  apply iloc_first_inv in Hv. apply iloc_last_inv in Hw.
  destruct v as [| | |a]; try done. destruct w as [| | |b]; try done.
  exists col, a, b. repeat (split; [done|]). simpl in Hd.
  by destruct (pd.in_bounds (b - a)).
Qed.

Lemma extremes_Ok_inv df field e :
  extremes df field = Ok e →
  ∃ col, columns df !! field = Some col ∧ ¬ Forall (λ v, v = NA) col.
Proof.
  intros He. destruct (columns df !! field) as [col|] eqn:Hcol.
  - exists col. split; [done|]. intros Hall.
    by rewrite (extremes_all_null df field col Hcol Hall) in He.
  - unfold extremes, pd.getitem in He. by rewrite Hcol in He.
Qed.

Lemma float_column_reading col :
  float_column col → ¬ Forall (λ v, v = NA) col → Exists (λ v, ∃ x, v = Num x) col.
Proof.
  induction 1 as [|v col [->|[x ->]] _ IH]; intros Hnot.
  - destruct Hnot. constructor.
  - right. apply IH. intros Hall. apply Hnot. by constructor.
  - left. by exists x.
Qed.

Lemma scan_reading better col :
  Exists (λ v, ∃ x, v = Num x) col →
  ∃ i x, pd.scan better None 0 (reading <$> col) = Some (i, x).
Proof.
  intros Hex. destruct (pd.scan better None 0 (reading <$> col)) as [[i x]|] eqn:Hscan;
    [by exists i, x|].
  apply scan_None in Hscan. apply Exists_exists in Hex as (v & Hv & x & ->).
  rewrite Forall_fmap, Forall_forall in Hscan. by specialize (Hscan _ Hv).
Qed.

(** No missing timestamp in a column that is timestamps followed by missing
    ones and that ends with a timestamp. *)
Lemma no_trailing_NA (ts : list Z) k b :
  last ((Timestamp <$> ts) ++ replicate k NA) = Some (Timestamp b) → k = 0%nat.
Proof.
  destruct k as [|k]; [done|]. rewrite replicate_S_end, app_assoc, last_snoc. done.
Qed.

Section completion.
Variable to_datetime_scalar : value → date_reading.
Variable floatify : string → option Q.

(** X6: for a frame that [fetch_data] returns without a notice, the Home
    page completes and shows its statistics exactly when the frame has at
    least two samples, every sample has a timestamp, the last timestamp is
    less than 2^63 nanoseconds after the first, and each of the two sensors
    has at least one reading. In every other case the page raises: it never
    falls back to its "No data available" branch. *)
Theorem home_completes_iff net df :
  fetch_data to_datetime_scalar floatify net = (df, []) →
  home df ≠ Ok None
  ∧ ((∃ h, home df = Ok (Some h))
     ↔ (2 ≤ length (index df))%nat
       ∧ Forall (λ v, ∃ t, v = Timestamp t) (timestamps df)
       ∧ (∀ a b, head (timestamps df) = Some (Timestamp a) →
                 last (timestamps df) = Some (Timestamp b) →
                 b - a ≤ pd.Timestamp_max)
       ∧ ∀ f, f = "field1" ∨ f = "field2" →
           ∃ col, columns df !! f = Some col ∧ Exists (λ v, ∃ x, v = Num x) col).
Proof.
  intros Hfetch%fetch_data_Ok.
  pose proof (fetch_wf _ _ _ _ Hfetch) as Hwf.
  destruct (fetch_created_at_sorted _ _ _ _ Hfetch) as (ts & k & Htimes & Hsorted).
  assert (Htss : timestamps df = (Timestamp <$> ts) ++ replicate k NA).
  { unfold timestamps. by rewrite Htimes. }
  split.
  { assert (Hne : index df ≠ []).
    { apply fetch_data_try_Ok in Hfetch
        as (r & feed & ts' & _ & _ & _ & Hca & _ & _ & Hts' & ->).
      rewrite sorted_index by (symmetry; by eapply Forall2_length).
      intros Heq. apply (f_equal length) in Heq.
      rewrite nargsort_Permutation, length_seq, length_fmap in Heq.
      rewrite <- (Forall2_length _ _ _ Hts') in Heq.
      destruct feed; [by apply Exists_nil in Hca | done]. }
    unfold home. rewrite (empty_false df "created_at" _ Hne Htimes). simpl.
    intros H. apply bind_Ok in H as (m1 & _ & H). apply bind_Ok in H as (p1 & _ & H).
    apply bind_Ok in H as (m2 & _ & H). apply bind_Ok in H as (p2 & _ & H).
    apply bind_Ok in H as (rg & _ & H). apply bind_Ok in H as (e1 & _ & H).
    apply bind_Ok in H as ([] & _ & H). apply bind_Ok in H as (e2 & _ & H).
    by apply bind_Ok in H as ([] & _ & H). }
  split.
  - intros (h & Hhome). unfold home in Hhome.
    destruct (pd.empty df); [done|]. simpl in Hhome.
    apply bind_Ok in Hhome as (m1 & Hm1 & H). apply bind_Ok in H as (p1 & _ & H).
    apply bind_Ok in H as (m2 & _ & H). apply bind_Ok in H as (p2 & _ & H).
    apply bind_Ok in H as (rg & Hrg & H). apply bind_Ok in H as (e1 & He1 & H).
    apply bind_Ok in H as ([] & _ & H). apply bind_Ok in H as (e2 & He2 & _).
    apply range_Ok_inv in Hrg as (col & a & b & Hcol & Hhead & Hlast & Hspan).
    rewrite Htimes in Hcol. injection Hcol as <-.
    split; [|split; [|split]].
    + apply metric_Ok_inv in Hm1 as (col & Hcol & Hlen).
      by rewrite <- (proj2 Hwf _ _ Hcol).
    + apply no_trailing_NA in Hlast as ->. rewrite Htss, app_nil_r.
      apply Forall_fmap, Forall_forall. intros t _. by exists t.
    + intros a' b'. rewrite Htss, Hhead, Hlast. intros [= <-] [= <-].
      unfold pd.in_bounds in Hspan. apply andb_prop in Hspan as [_ Hspan].
      by apply Z.leb_le.
    + intros f Hf.
      assert (∃ e, extremes df f = Ok e) as [e He]
        by (destruct Hf as [-> | ->]; eauto).
      apply extremes_Ok_inv in He as (col & Hcol & Hnot).
      exists col. split; [done|]. apply float_column_reading; [|done].
      by apply (fetch_float_column _ _ _ _ _ _ Hfetch Hf).
  - intros (Hlen & Hall & Hspan & Hfields).
    assert (k = 0%nat) as ->.
    { rewrite Htss, Forall_app in Hall. destruct Hall as [_ Hall].
      destruct k as [|k]; [done|]. by inversion_clear Hall as [|?? [t ?] _]. }
    rewrite app_nil_r in Htimes.
    assert (Hts : length ts = length (index df)).
    { by rewrite <- (proj2 Hwf _ _ Htimes), length_fmap. }
    assert (Hmetric : ∀ f, f = "field1" ∨ f = "field2" → ∃ m, metric df f = Ok m).
    { intros f Hf. destruct (Hfields f Hf) as (col & Hcol & _).
      apply (metric_Ok df f col Hcol).
      - by apply (fetch_float_column _ _ _ _ _ _ Hfetch Hf).
      - by rewrite (proj2 Hwf _ _ Hcol). }
    assert (Hplot : ∀ f, f = "field1" ∨ f = "field2" → ∃ p, create_plot df f = Ok p).
    { intros f Hf. destruct (Hfields f Hf) as (col & Hcol & _).
      eexists. unfold create_plot, pd.getitem. by rewrite Htimes, Hcol. }
    assert (Hext : ∀ f, f = "field1" ∨ f = "field2" →
              ∃ e, extremes df f = Ok e ∧ show_extremes e = Ok tt).
    { intros f Hf. destruct (Hfields f Hf) as (col & Hcol & Hex).
      destruct (scan_reading pd.gtb col Hex) as (i & x & Hmax).
      destruct (scan_reading pd.ltb col Hex) as (j & y & Hmin).
      destruct (extremes_Ok df f col _ i x j y Hwf Hcol
                  (fetch_float_column _ _ _ _ _ _ Hfetch Hf Hcol) Htimes Hmax Hmin)
        as (t_max & t_min & Ht_max & Ht_min & He).
      apply list_lookup_fmap_Some in Ht_max as (u & -> & _).
      apply list_lookup_fmap_Some in Ht_min as (u' & -> & _).
      eexists. split; [done|]. done. }
    destruct ts as [|a ts'] eqn:Hts'; [simpl in Hts; lia|]. rewrite <- Hts' in *.
    assert (∃ b, last ts = Some b) as [b Hb].
    { rewrite last_lookup. apply lookup_lt_is_Some_2. rewrite Hts'. simpl. lia. }
    pose proof (range_eq df _ a b Htimes) as Hrange.
    rewrite fmap_last, Hb in Hrange. rewrite Hts' in Hrange at 1.
    specialize (Hrange eq_refl eq_refl).
    specialize (Hspan a b). rewrite Htss, app_nil_r, fmap_last, Hb in Hspan.
    rewrite Hts' in Hspan at 1. specialize (Hspan eq_refl eq_refl).
    assert (Hab : a ≤ b).
    { apply (Sorted_head_le ts); [done | by rewrite Hts' |].
      rewrite last_lookup in Hb. by eapply list_elem_of_lookup_2. }
    specialize (Hrange (in_bounds_span a b Hab Hspan)).
    destruct (Hmetric "field1") as [m1 Hm1]; [by left|].
    destruct (Hmetric "field2") as [m2 Hm2]; [by right|].
    destruct (Hplot "field1") as [p1 Hp1]; [by left|].
    destruct (Hplot "field2") as [p2 Hp2]; [by right|].
    destruct (Hext "field1") as (e1 & He1 & Hs1); [by left|].
    destruct (Hext "field2") as (e2 & He2 & Hs2); [by right|].
    assert (Hidx : index df ≠ [])
      by (intros Heq; rewrite Heq in Hlen; simpl in Hlen; lia).
    eexists. unfold home. rewrite (empty_false df "created_at" _ Hidx Htimes).
    simpl. rewrite Hm1. simpl. rewrite Hp1. simpl. rewrite Hm2. simpl.
    rewrite Hp2. simpl. rewrite Hrange. simpl. rewrite He1. simpl.
    rewrite Hs1. simpl. rewrite He2. simpl. by rewrite Hs2.
Qed.

End completion.

(** ** Extremes, columns and the span of the data *)

(** X7: whenever the extremes of a column are computed, the maximum and the
    minimum shown bound every reading of the column, and the minimum is not
    above the maximum. *)
Theorem extremes_bound df field col e :
  columns df !! field = Some col →
  extremes df field = Ok e →
  ∃ M m, max_temp e = Num M ∧ min_temp e = Num m ∧ (m <= M)%Q
    ∧ ∀ j y, col !! j = Some (Num y) → (m <= y)%Q ∧ (y <= M)%Q.
Proof.
  intros Hcol He. unfold extremes, pd.getitem in He. rewrite Hcol in He. simpl in He.
  apply bind_Ok in He as (xs & Hxs & He). apply traverse_Ok in Hxs.
  apply bind_Ok in He as (t_max & Hmax & He). apply bind_Ok in He as (t_min & Hmin & He).
  injection He as <-. simpl.
  unfold pd.idxmax, pd.max in *. unfold pd.idxmin, pd.min in *.
  destruct (pd.scan pd.gtb None 0 xs) as [[i M]|] eqn:HM; [|done].
  destruct (pd.scan pd.ltb None 0 xs) as [[j m]|] eqn:Hm; [|done].
  apply scan_max in HM as (Hi & HleM & _). apply scan_min in Hm as (Hj & Hlem & _).
  exists M, m. split; [done|]. split; [done|]. split; [by apply (Hlem i)|].
  intros k y Hk. destruct (Forall2_lookup_l _ _ _ _ _ Hxs Hk) as (x & Hx & Hf).
  simpl in Hf. injection Hf as <-. split; [by apply (Hlem k) | by apply (HleM k)].
Qed.

Lemma Sorted_last_ge ts final x :
  Sorted Z.le ts → last ts = Some final → x ∈ ts → x ≤ final.
Proof.
  intros Hs%Sorted_StronglySorted; [|apply _].
  induction Hs as [|a ts Hs IH Hall]; [done|].
  destruct ts as [|a' ts]; simpl.
  - intros [= <-] ->%list_elem_of_singleton. done.
  - intros Hlast [->|Hx]%elem_of_cons; [|by apply IH].
    rewrite Forall_forall in Hall. apply Hall.
    change (last (a' :: ts) = Some final) in Hlast. rewrite last_lookup in Hlast.
    by eapply list_elem_of_lookup_2.
Qed.

Lemma DataFrame_of_dom (feed : list entry) :
  dom (columns (pd.DataFrame_of feed)) = ⋃ (dom <$> feed).
Proof.
  apply set_eq. intros c. rewrite elem_of_dom, DataFrame_of_columns.
  rewrite elem_of_union_list. split.
  - case_decide as Hex; [|by intros [? ?]]. intros _.
    apply Exists_exists in Hex as (e & He & Hc).
    exists (dom e). split; [apply list_elem_of_fmap; eauto | by apply elem_of_dom].
  - intros (X & HX & Hc). apply list_elem_of_fmap in HX as (e & -> & He).
    rewrite decide_True; [done|]. apply Exists_exists. exists e.
    split; [done | by apply elem_of_dom].
Qed.

Lemma has_column_dom (feed : list entry) c :
  has_column feed c ↔ c ∈ (⋃ (dom <$> feed) : gset string).
Proof.
  rewrite <- DataFrame_of_dom, elem_of_dom, DataFrame_of_columns.
  unfold has_column. case_decide; [done|]. split; [done | by intros [? ?]].
Qed.

Section members.
Variable to_datetime_scalar : value → date_reading.
Variable floatify : string → option Q.

(** X8: a frame returned without a notice has exactly the columns that are
    members of some record of the feed. A column other than created_at,
    field1 and field2 is carried along untouched: in the row of a record it
    holds the raw member of that record. *)
Theorem fetch_data_keeps_members net df :
  fetch_data to_datetime_scalar floatify net = (df, []) →
  ∃ feed, delivers net feed
    ∧ dom (columns df) = ⋃ (dom <$> feed)
    ∧ ∀ c j i e,
        c ≠ "created_at" → c ≠ "field1" → c ≠ "field2" →
        has_column feed c →
        index df !! j = Some i → feed !! i = Some e →
        cell_at df c j = Some (pd.cell e c).
Proof.
  intros (r & feed & ts & -> & Hst & Hfeed & H0 & H1 & H2 & Hts & ->)
           %fetch_data_Ok%fetch_data_try_Ok.
  pose proof (Forall2_length _ _ _ Hts) as Hlen. symmetry in Hlen.
  exists feed. split; [by exists r|]. split.
  - unfold pd.take; cbn [columns]. rewrite dom_fmap_L.
    unfold unsorted, pd.setitem; cbn [columns].
    rewrite !dom_insert_L, DataFrame_of_dom.
    apply has_column_dom in H0, H1, H2. set_solver.
  - intros c j i e Hc0 Hc1 Hc2 Hc Hj He.
    rewrite sorted_index in Hj by done.
    rewrite cell_at_take, unsorted_other, DataFrame_of_columns by done.
    rewrite decide_True by done. simpl. rewrite Hj. simpl. f_equal.
    apply list_lookup_total_correct. by rewrite list_lookup_fmap, He.
Qed.

(** X9: when every record of the delivered feed has a created_at that is
    not read as no time, and [fetch_data] returns without a notice, the data
    range runs from the earliest to the latest instant of the feed, both
    shifted by the offset, whatever the order of the records; the number of
    days shown is the whole days between these two instants and does not
    depend on the offset. It is shown when the two instants are less than
    2^63 nanoseconds apart; otherwise their difference raises. *)
Theorem days_passed_is_span net df feed :
  fetch_data to_datetime_scalar floatify net = (df, []) →
  delivers net feed →
  Forall (λ e, pd.cell e "created_at" ≠ NA
               ∧ to_datetime_scalar (pd.cell e "created_at") ≠ NotATime) feed →
  ∃ e_min e_max u_min u_max,
    e_min ∈ feed ∧ e_max ∈ feed
    ∧ to_datetime_scalar (pd.cell e_min "created_at") = Instant u_min
    ∧ to_datetime_scalar (pd.cell e_max "created_at") = Instant u_max
    ∧ (∀ e u, e ∈ feed → to_datetime_scalar (pd.cell e "created_at") = Instant u →
              u_min ≤ u ≤ u_max)
    ∧ range df
      = if decide (u_max - u_min ≤ pd.Timestamp_max)
        then Ok {| first_timestamp := Timestamp (u_min + TZ_OFFSET);
                   last_timestamp := Timestamp (u_max + TZ_OFFSET);
                   days_passed := (u_max - u_min) `div` ns_per_day |}
        else Raise OutOfBoundsDatetime.
Proof.
  intros Hfetch%fetch_data_Ok (r & -> & Hst & Hfeed) Hall.
  destruct (fetch_created_at_sorted _ _ _ _ Hfetch) as (ts & k & Htimes & Hsorted).
  destruct (fetch_rows _ _ _ _ Hfetch)
    as (feed' & (r' & [= <-] & _ & Hfeed') & Hperm & Hlen & Hrows).
  rewrite Hfeed in Hfeed'. injection Hfeed' as <-.
  assert (Hn : length (index df) = length feed).
  { by rewrite Hperm, length_seq. }
  (* every row has a timestamp, the shifted instant of its record *)
  assert (Hrow : ∀ j, (j < length feed)%nat →
            ∃ e u, e ∈ feed
                   ∧ to_datetime_scalar (pd.cell e "created_at") = Instant u
                   ∧ ((Timestamp <$> ts) ++ replicate k NA) !! j
                     = Some (Timestamp (u + TZ_OFFSET))).
  { intros j Hj. destruct (lookup_lt_is_Some_2 (index df) j) as [i Hi]; [lia|].
    destruct (Hrows _ _ Hi) as (e & t & He & Ht & Hcell & _).
    apply local_time_Ok in Ht; [|intros u; apply cell_not_Timestamp].
    rewrite Forall_lookup in Hall. destruct (Hall _ _ He) as [Hna Hnat].
    destruct Ht as [[? _]|[(_ & ? & _)|(u & _ & Hu & _ & _ & ->)]]; [done..|].
    exists e, u. split; [by eapply list_elem_of_lookup_2|]. split; [done|].
    unfold cell_at in Hcell. by rewrite Htimes in Hcell. }
  assert (Hne : (0 < length feed)%nat).
  { apply fetch_data_try_Ok in Hfetch
      as (r0 & feed0 & ts0 & [= <-] & _ & Hfeed0 & Hca & _).
    rewrite Hfeed in Hfeed0. injection Hfeed0 as <-.
    destruct feed; [by apply Exists_nil in Hca | simpl; lia]. }
  assert (Hcl : length ((Timestamp <$> ts) ++ replicate k NA) = length feed).
  { by apply Hlen with "created_at". }
  assert (k = 0%nat) as ->.
  { destruct (Hrow (Nat.pred (length feed))) as (e & u & _ & _ & Hlast); [lia|].
    rewrite <- Hcl, <- last_lookup in Hlast. by apply no_trailing_NA in Hlast. }
  rewrite app_nil_r in *. rewrite length_fmap in Hcl.
  destruct (Hrow 0%nat Hne) as (e_min & u_min & He_min & Hu_min & Hfirst).
  destruct (Hrow (Nat.pred (length feed))) as (e_max & u_max & He_max & Hu_max & Hlast);
    [lia|].
  rewrite <- Hcl, <- (length_fmap Timestamp ts), <- last_lookup in Hlast.
  exists e_min, e_max, u_min, u_max. repeat (split; [done|]).
  assert (Hbounds : ∀ e u, e ∈ feed →
            to_datetime_scalar (pd.cell e "created_at") = Instant u →
            u_min ≤ u ≤ u_max); [|split; [done|]].
  - intros e u He Hu. apply list_elem_of_lookup in He as (i & Hi).
    assert (Hin : i ∈ index df).
    { rewrite Hperm. apply elem_of_seq. apply lookup_lt_Some in Hi. lia. }
    apply list_elem_of_lookup in Hin as (j & Hj).
    destruct (Hrows _ _ Hj) as (e' & t & He' & Ht & Hcell & _).
    rewrite Hi in He'. injection He' as <-.
    apply local_time_Ok in Ht; [|intros u'; apply cell_not_Timestamp].
    destruct Ht as [[_ ->]|[(_ & _ & ->)|(u' & _ & Hu' & _ & _ & ->)]];
      [unfold cell_at in Hcell; rewrite Htimes in Hcell; simpl in Hcell;
       by apply list_lookup_fmap_Some in Hcell as (x & [=] & _)..|].
    rewrite Hu in Hu'. injection Hu' as <-.
    unfold cell_at in Hcell. rewrite Htimes in Hcell. simpl in Hcell.
    apply list_lookup_fmap_Some in Hcell as (x & [= Hx] & Hxj).
    apply list_elem_of_lookup_2 in Hxj.
    rewrite list_lookup_fmap in Hfirst. rewrite fmap_last in Hlast.
    destruct (ts !! 0%nat) as [a|] eqn:Ha; [|done].
    destruct (last ts) as [b|] eqn:Hb; [|done].
    simpl in Hfirst, Hlast. injection Hfirst as ->. injection Hlast as ->.
    assert (head ts = Some (u_min + TZ_OFFSET)) as Hhd by (by destruct ts).
    pose proof (Sorted_head_le ts _ x Hsorted Hhd Hxj).
    pose proof (Sorted_last_ge ts _ x Hsorted Hb Hxj). lia.
  - rewrite (range_span df _ (u_min + TZ_OFFSET) (u_max + TZ_OFFSET) Htimes);
      [|by destruct ts | done].
    replace (u_max + TZ_OFFSET - (u_min + TZ_OFFSET)) with (u_max - u_min) by lia.
    destruct (Hbounds e_max u_max He_max Hu_max) as [Hle _].
    case_decide as Hspan.
    + by rewrite in_bounds_span.
    + unfold pd.in_bounds.
      rewrite (proj2 (Z.leb_gt (u_max - u_min) pd.Timestamp_max)) by lia.
      by rewrite andb_false_r.
Qed.


End members.

(** ** Row labels *)

(** In a frame with unique labels, looking a row up by the label found at a
    position reads the cell at that position. *)
Lemma loc_index df c i :
  wf_frame df → (i < length (index df))%nat →
  pd.loc df (index df !! i) c
  = (col ← pd.getitem df c;
     match col !! i with Some v => Ok v | None => Raise IndexError end).
Proof.
  intros [Hnd _] Hi. destruct (lookup_lt_is_Some_2 (index df) i Hi) as [l Hl].
  rewrite Hl. unfold pd.loc. by rewrite (get_loc_lookup _ _ _ Hnd Hl).
Qed.

Lemma scan_position better best s xs i x :
  pd.scan better best s xs = Some (i, x) →
  best = Some (i, x) ∨ (s ≤ i < s + length xs)%nat.
Proof.
  revert best s. induction xs as [|[x0|] xs IH]; intros best s; simpl.
  - by left.
  - assert (Hnew : pd.scan better (Some (s, x0)) (S s) xs = Some (i, x) →
                   (s ≤ i < s + S (length xs))%nat).
    { intros [[= <- <-]|?]%IH; lia. }
    destruct best as [[ib b]|]; [|by right; apply Hnew].
    destruct (better x0 b); [by right; apply Hnew|].
    intros [?|?]%IH; [by left | right; lia].
  - intros [?|?]%IH; [by left | right; lia].
Qed.

Lemma extremes_by_position df field :
  wf_frame df →
  extremes df field
  = (col ← pd.getitem df field;
     xs ← traverse pd.float1 col;
     p ← match pd.scan pd.gtb None 0 xs with
         | Some p => Ok p | None => Raise (KeyError NaNLabel) end;
     times ← pd.getitem df "created_at";
     max_temp_time ← match times !! p.1 with
                     | Some v => Ok v | None => Raise IndexError end;
     q ← match pd.scan pd.ltb None 0 xs with
         | Some q => Ok q | None => Raise (KeyError NaNLabel) end;
     times ← pd.getitem df "created_at";
     min_temp_time ← match times !! q.1 with
                     | Some v => Ok v | None => Raise IndexError end;
     Ok {| max_temp := Num p.2; min_temp := Num q.2;
           max_temp_time := max_temp_time; min_temp_time := min_temp_time |}).
Proof.
  intros Hwf. unfold extremes, pd.getitem.
  destruct (columns df !! field) as [col|] eqn:Hcol; simpl; [|done].
  destruct (traverse pd.float1 col) as [xs|] eqn:Hxs; simpl; [|done].
  assert (Hlen : length xs = length (index df)).
  { apply traverse_Ok, Forall2_length in Hxs. by rewrite <- Hxs, (proj2 Hwf _ _ Hcol). }
  assert (Hpos : ∀ better i x, pd.scan better None 0 xs = Some (i, x) →
                               (i < length (index df))%nat).
  { intros better i x [[=]|?]%scan_position. lia. }
  unfold pd.idxmax, pd.idxmin, pd.max, pd.min.
  destruct (pd.scan pd.gtb None 0 xs) as [[i x]|] eqn:Hmax; simpl; [|done].
  rewrite (loc_index df _ i Hwf (Hpos _ _ _ Hmax)). unfold pd.getitem.
  destruct (columns df !! "created_at") as [times|] eqn:Htimes; simpl; [|done].
  destruct (times !! i) as [t|]; simpl; [|done].
  destruct (pd.scan pd.ltb None 0 xs) as [[j y]|] eqn:Hmin; simpl; [|done].
  rewrite (loc_index df _ j Hwf (Hpos _ _ _ Hmin)). unfold pd.getitem.
  by rewrite Htimes.
Qed.

(** The Home page of a frame with unique labels and full columns depends on
    the columns only. *)
Lemma home_ignores_labels df df' :
  wf_frame df → wf_frame df' → columns df' = columns df → home df' = home df.
Proof.
  intros Hwf Hwf' Hcols.
  assert (Hempty : pd.empty df' = pd.empty df).
  { unfold pd.empty. rewrite Hcols.
    destruct (decide (columns df = ∅)) as [He|Hne].
    - rewrite !(bool_decide_eq_true_2 (columns df = ∅)) by done.
      by rewrite !orb_true_r.
    - apply map_choose in Hne as (c & col & Hcol).
      pose proof (proj2 Hwf _ _ Hcol) as Hl.
      rewrite <- Hcols in Hcol. pose proof (proj2 Hwf' _ _ Hcol) as Hl'.
      f_equal. apply bool_decide_ext.
      destruct (index df), (index df'); simpl in *; split; intros; congruence || lia. }

  assert (Hget : ∀ c, pd.getitem df' c = pd.getitem df c)
    by (intros c; unfold pd.getitem; by rewrite Hcols).
  unfold home. rewrite Hempty.
  rewrite !(extremes_by_position df') by done.
  rewrite !(extremes_by_position df) by done.
  unfold metric, create_plot, range. by rewrite !Hget.
Qed.

(** ** The order of the feed *)

Lemma fmap_lookup_total_seq {A} `{!Inhabited A} (l : list A) :
  (λ i, l !!! i) <$> seq 0 (length l) = l.
Proof.
  apply list_eq. intros i. rewrite list_lookup_fmap.
  destruct (decide (i < length l)%nat) as [Hi|Hi].
  - rewrite lookup_seq_lt by done. simpl.
    by rewrite list_lookup_lookup_total_lt.
  - rewrite lookup_seq_ge, lookup_ge_None_2 by lia. done.
Qed.

Lemma StronglySorted_by_key {A K} (R : relation K) (key : A → K) (l : list A) :
  StronglySorted R (key <$> l) → StronglySorted (λ a b, R (key a) (key b)) l.
Proof.
  induction l as [|a l IH]; [constructor|].
  rewrite fmap_cons. intros [Hall Hs]%StronglySorted_cons.
  constructor; [by apply IH|]. apply Forall_forall. intros b Hb.
  rewrite Forall_forall in Hall. apply Hall, list_elem_of_fmap. eauto.
Qed.

Lemma StronglySorted_keys_last ts k :
  Sorted Z.le ts →
  StronglySorted key_le_last ((Some <$> ts) ++ replicate k None).
Proof.
  intros Hs%Sorted_StronglySorted; [|apply _].
  induction Hs as [|a ts _ IH Hall]; simpl.
  - induction k as [|k IH]; simpl; constructor; [done|].
    apply Forall_forall. by intros x [-> _]%elem_of_replicate.
  - constructor; [done|]. apply Forall_app. split.
    + apply Forall_fmap. eapply Forall_impl; [done|]. by intros x Hx.
    + apply Forall_forall. by intros x [-> _]%elem_of_replicate.
Qed.

Section order.
Variable to_datetime_scalar : value → date_reading.
Variable floatify : string → option Q.

Abbreviation shown_time' := (shown_time to_datetime_scalar).
Abbreviation shown_cell' := (shown_cell to_datetime_scalar floatify).
Abbreviation sorted_records' := (sorted_records to_datetime_scalar).
Abbreviation sort_key' := (sort_key to_datetime_scalar).

Lemma shown_times (feed : list entry) ts :
  Forall2 (λ e t, local_time to_datetime_scalar (pd.cell e "created_at") = Ok t) feed ts
  ↔ Forall (readable to_datetime_scalar) feed ∧ ts = shown_time' <$> feed.
Proof.
  split.
  - induction 1 as [|e t feed ts He _ [IH ->]]; [by split|]. split.
    + constructor; [by exists t | done].
    + rewrite fmap_cons. f_equal. unfold shown_time. by rewrite He.
  - intros [Hread ->]. induction Hread as [|e feed [t Ht] _ IH]; constructor; [|done].
    unfold shown_time. by rewrite Ht.
Qed.

Lemma sorted_records_Permutation (feed : list entry) : sorted_records' feed ≡ₚ feed.
Proof.
  unfold sorted_records. rewrite nargsort_Permutation, length_fmap.
  by rewrite fmap_lookup_total_seq.
Qed.

(** The frame of a successful fetch in closed form: each column of the
    feed, read off the records in sorted order. *)
Lemma fetch_columns net df feed :
  fetch_data_try to_datetime_scalar floatify net = Ok df →
  delivers net feed →
  ∀ c, columns df !! c
       = if decide (has_column feed c)
         then Some (shown_cell' c <$> sorted_records' feed) else None.
Proof.
  intros (r & feed' & ts & -> & _ & Hfeed' & H0 & H1 & H2 & Hts & ->)%fetch_data_try_Ok.
  intros (r' & [= <-] & _ & Hfeed). rewrite Hfeed in Hfeed'. injection Hfeed' as <-.
  apply shown_times in Hts as [_ ->]. intros c.
  rewrite take_columns. unfold sorted_records.
  replace (instant <$> (shown_time' <$> feed)) with (sort_key' <$> feed)
    by (by rewrite <- list_fmap_compose).
  set (idx := pd.nargsort (sort_key' <$> feed)).
  assert (Hidx : Forall (λ i, (i < length feed)%nat) idx).
  { subst idx. rewrite <- (length_fmap sort_key' feed). apply nargsort_lt. }
  assert (Hcol : ∀ (g : entry → value), (λ i, (g <$> feed) !!! i) <$> idx
                     = g <$> ((λ i, feed !!! i) <$> idx)).
  { intros g. rewrite <- list_fmap_compose. apply Forall_fmap_ext.
    eapply Forall_impl; [done|]. intros i Hi. simpl.
    by apply list_lookup_total_fmap. }
  unfold shown_cell.
  destruct (decide (c = "created_at")) as [->|Hc0].
  { rewrite unsorted_created_at, decide_True by done. simpl. by rewrite Hcol. }
  destruct (decide (c = "field1")) as [->|Hc1].
  { rewrite unsorted_field1, decide_True by done. simpl. unfold pd.to_numeric.
    by rewrite <- list_fmap_compose, Hcol. }
  destruct (decide (c = "field2")) as [->|Hc2].
  { rewrite unsorted_field2, decide_True by done. simpl. unfold pd.to_numeric.
    by rewrite <- list_fmap_compose, Hcol. }
  rewrite unsorted_other, DataFrame_of_columns by done.
  unfold has_column. case_decide; [|done].
  cbn [fmap option_fmap option_map]. rewrite Hcol. f_equal.
  apply list_fmap_ext. intros ? e _. cbv beta.
  by rewrite decide_False by tauto.
Qed.

(** The records in sorted order are sorted by their instants, those
    without one last. *)
Lemma sorted_records_sorted (feed : list entry) :
  StronglySorted (λ a b, key_le_last (sort_key' a) (sort_key' b))
    (sorted_records' feed).
Proof.
  apply StronglySorted_by_key.
  destruct (nargsort_sorted (sort_key' <$> feed)) as (ts & k & Heq & Hsorted).
  assert (Hkeys : (λ i, (sort_key' <$> feed) !!! i) <$> pd.nargsort (sort_key' <$> feed)
                  = sort_key' <$> sorted_records' feed).
  { unfold sorted_records. rewrite <- list_fmap_compose. apply Forall_fmap_ext.
    pose proof (nargsort_lt (sort_key' <$> feed)) as Hlt.
    rewrite length_fmap in Hlt. eapply Forall_impl; [done|]. intros i Hi. simpl.
    by rewrite (list_lookup_total_fmap sort_key' feed i) by done. }
  rewrite <- Hkeys, Heq. by apply StronglySorted_keys_last.
Qed.

(** A created_at cell of the frame is given by its instant. *)
Lemma shown_time_of_instant e : shown_time' e = of_instant (sort_key' e).
Proof.
  unfold sort_key, shown_time.
  destruct (local_time _ _) as [t|] eqn:Ht; [|done].
  apply local_time_datetime in Ht. by destruct t.
Qed.

(** X11: what the page shows does not depend on the order in which the
    records arrive. If every record has a created_at and records with the
    same instant are equal, a feed and any rearrangement of it, when the
    first is fetched without a notice, give frames with the same columns,
    only the row labels, which are the positions in the feed, can differ,
    and [main] has the same outcome for both. *)
Theorem fetch_data_order_independent net net' feed feed' df :
  delivers net feed →
  delivers net' feed' →
  feed' ≡ₚ feed →
  Forall (λ e, pd.cell e "created_at" ≠ NA) feed →
  (∀ e1 e2, e1 ∈ feed → e2 ∈ feed → shown_time' e1 = shown_time' e2 → e1 = e2) →
  fetch_data to_datetime_scalar floatify net = (df, []) →
  ∃ df', fetch_data to_datetime_scalar floatify net' = (df', [])
         ∧ columns df' = columns df
         ∧ main to_datetime_scalar floatify net' = main to_datetime_scalar floatify net.
Proof.
  intros Hnet Hnet' Hperm Hdated Hinj Hfetch0. pose proof Hfetch0 as Hfetch%fetch_data_Ok.
  pose proof Hfetch as (r & feed0 & ts & -> & Hst & Hfeed & H0 & H1 & H2 & Hts & _)
                         %fetch_data_try_Ok.
  destruct Hnet as (r0 & [= <-] & _ & Hfeed0). rewrite Hfeed in Hfeed0.
  injection Hfeed0 as ->.
  apply shown_times in Hts as [Hread _].
  assert (Hcols : ∀ c, has_column feed' c ↔ has_column feed c).
  { intros c. unfold has_column. rewrite !Exists_exists.
    by setoid_rewrite Hperm. }
  assert (Hread' : Forall (readable to_datetime_scalar) feed') by (by rewrite Hperm).
  assert (∃ df', fetch_data_try to_datetime_scalar floatify net' = Ok df') as [df' Hfetch'].
  { destruct Hnet' as (r' & -> & Hst' & Hfeed').
    eexists. apply fetch_data_try_Ok. exists r', feed', (shown_time' <$> feed').
    split; [done|]. split; [done|]. split; [done|].
    split; [by apply Hcols|]. split; [by apply Hcols|]. split; [by apply Hcols|].
    split; [by apply shown_times | done]. }
  exists df'. split; [by apply fetch_data_Ok|].
  assert (columns df' = columns df) as Hcols';
    [|split; [done|]; unfold main;
      rewrite Hfetch0, (proj2 (fetch_data_Ok _ _ _ _) Hfetch');
      f_equal; apply home_ignores_labels; eauto using fetch_wf].
  assert (Hsame : sorted_records' feed' = sorted_records' feed).
  { apply (StronglySorted_unique_strong
             (λ a b, key_le_last (sort_key' a) (sort_key' b))).
    - intros e1 e2 He1 He2 Hle Hge.
      rewrite sorted_records_Permutation in He1, He2. rewrite Hperm in He1.
      apply Hinj; [done..|]. rewrite !shown_time_of_instant. f_equal.
      destruct (sort_key' e1), (sort_key' e2); simpl in *; try done.
      f_equal. lia.
    - apply sorted_records_sorted.
    - apply sorted_records_sorted.
    - by rewrite !sorted_records_Permutation. }
  apply map_eq. intros c.
  rewrite (fetch_columns _ _ feed' Hfetch' Hnet'), (fetch_columns _ df feed Hfetch).
  - rewrite Hsame. apply decide_ext, Hcols.
  - by exists r.
Qed.

End order.

(** * The further properties on the example feeds *)

Ltac by_computation :=
  unfold has_column;
  match goal with |- ?P => apply (bool_decide_unpack P); vm_compute; exact I end.

Ltac is_delivered := eexists; split; [reflexivity|]; split; reflexivity.

Lemma fetch_data_no_created_at_witness :
  ref_fetch_data (good undated_column_feed)
  = (pd.empty_frame, [processing_notice "created_at"]).
Proof.
  apply (fetch_data_no_created_at Reference.to_datetime_scalar Reference.decimal
           (good undated_column_feed) undated_column_feed).
  - is_delivered.
  - by_computation.
Defined.

Lemma fetch_data_no_field_witness :
  ref_fetch_data (good one_sensor_feed)
  = (pd.empty_frame, [processing_notice "field2"]).
Proof.
  apply (fetch_data_no_field Reference.to_datetime_scalar Reference.decimal
           (good one_sensor_feed) one_sensor_feed).
  - is_delivered.
  - by_computation.
  - repeat (apply List.Forall_cons; [eexists; vm_compute; reflexivity|]).
    apply List.Forall_nil.
  - by_computation.
Defined.

Lemma fetch_data_unreadable_date_witness :
  ∃ e, (e = ValueError ∨ e = OutOfBoundsDatetime ∨ e = OverflowError)
       ∧ ref_fetch_data (good bad_date_feed) = (pd.empty_frame, [unexpected_notice e]).
Proof.
  apply (fetch_data_unreadable_date Reference.to_datetime_scalar Reference.decimal
           (good bad_date_feed) bad_date_feed).
  - is_delivered.
  - by_computation.
  - apply List.Exists_cons_tl, List.Exists_cons_hd.
    intros [t Ht]. vm_compute in Ht. discriminate.
Defined.

(** The date that is not readable raises a ValueError, the date before the
    bounds of a timestamp is out of bounds, and the date that the shift takes
    below them overflows. *)
Example bad_date_main :
  ref_main (good bad_date_feed) = (Ok None, [unexpected_notice ValueError])
  ∧ ref_main (good ancient_feed) = (Ok None, [unexpected_notice OutOfBoundsDatetime])
  ∧ ref_main (good early_feed) = (Ok None, [unexpected_notice OverflowError]).
Proof. vm_compute. done. Qed.

Lemma fetch_data_succeeds_iff_witness :
  ∃ df, ref_fetch_data (good scenario_feed) = (df, []).
Proof.
  apply (proj2 (fetch_data_succeeds_iff Reference.to_datetime_scalar Reference.decimal
                  (good scenario_feed))).
  exists scenario_feed. split; [is_delivered|].
  split; [by_computation|]. split; [by_computation|]. split; [by_computation|].
  repeat (apply List.Forall_cons; [eexists; vm_compute; reflexivity|]).
  apply List.Forall_nil.
Defined.

Lemma main_after_failed_fetch_witness :
  ref_main (Received {| status_code := 500; content := NotJson |})
  = (Ok None, [fetch_notice])
  ∧ @nil notice = [] ∧ pd.empty_frame = pd.empty_frame.
Proof.
  apply (main_after_failed_fetch Reference.to_datetime_scalar Reference.decimal
           (Received {| status_code := 500; content := NotJson |})
           pd.empty_frame fetch_notice []).
  reflexivity.
Defined.

Lemma home_completes_iff_witness :
  home scenario_frame ≠ Ok None
  ∧ ((∃ h, home scenario_frame = Ok (Some h))
     ↔ (2 ≤ length (index scenario_frame))%nat
       ∧ Forall (λ v, ∃ t, v = Timestamp t) (timestamps scenario_frame)
       ∧ (∀ a b, head (timestamps scenario_frame) = Some (Timestamp a) →
                 last (timestamps scenario_frame) = Some (Timestamp b) →
                 b - a ≤ pd.Timestamp_max)
       ∧ ∀ f, f = "field1" ∨ f = "field2" →
           ∃ col, columns scenario_frame !! f = Some col
                  ∧ Exists (λ v, ∃ x, v = Num x) col).
Proof.
  apply (home_completes_iff Reference.to_datetime_scalar Reference.decimal
           (good scenario_feed) scenario_frame).
  vm_compute. reflexivity.
Defined.

Lemma extremes_bound_witness :
  ∃ M m, Num 9 = Num M ∧ Num 5 = Num m ∧ (m <= M)%Q
    ∧ ∀ j y, [Num 5; Num 9; Num 9] !! j = Some (Num y) → (m <= y)%Q ∧ (y <= M)%Q.
Proof.
  apply (extremes_bound tie_frame "field1" [Num 5; Num 9; Num 9]
           {| max_temp := Num 9; min_temp := Num 5;
              max_temp_time := Timestamp 1704142800000000000;
              min_temp_time := Timestamp 1704056400000000000 |}).
  - vm_compute. reflexivity.
  - vm_compute. reflexivity.
Defined.

Lemma fetch_data_keeps_members_witness :
  ∃ feed, delivers (good numbered_feed) feed
    ∧ dom (columns numbered_frame) = ⋃ (dom <$> feed)
    ∧ ∀ c j i e,
        c ≠ "created_at" → c ≠ "field1" → c ≠ "field2" →
        has_column feed c →
        index numbered_frame !! j = Some i → feed !! i = Some e →
        cell_at numbered_frame c j = Some (pd.cell e c).
Proof.
  apply (fetch_data_keeps_members Reference.to_datetime_scalar Reference.decimal
           (good numbered_feed) numbered_frame).
  vm_compute. reflexivity.
Defined.

(** The entry numbers follow their records into the sorted frame. *)
Example numbered_frame_entry_id :
  columns numbered_frame !! "entry_id" = Some [Num 1; Num 2]
  ∧ index numbered_frame = [1; 0]%nat.
Proof. vm_compute. done. Qed.

Lemma days_passed_is_span_witness :
  ∃ e_min e_max u_min u_max,
    e_min ∈ tie_feed ∧ e_max ∈ tie_feed
    ∧ Reference.to_datetime_scalar (pd.cell e_min "created_at") = Instant u_min
    ∧ Reference.to_datetime_scalar (pd.cell e_max "created_at") = Instant u_max
    ∧ (∀ e u, e ∈ tie_feed →
              Reference.to_datetime_scalar (pd.cell e "created_at") = Instant u →
              u_min ≤ u ≤ u_max)
    ∧ range tie_frame
      = if decide (u_max - u_min ≤ pd.Timestamp_max)
        then Ok {| first_timestamp := Timestamp (u_min + TZ_OFFSET);
                   last_timestamp := Timestamp (u_max + TZ_OFFSET);
                   days_passed := (u_max - u_min) `div` ns_per_day |}
        else Raise OutOfBoundsDatetime.
Proof.
  apply (days_passed_is_span Reference.to_datetime_scalar Reference.decimal
           (good tie_feed) tie_frame tie_feed).
  - vm_compute. reflexivity.
  - is_delivered.
  - repeat (apply List.Forall_cons;
            [split; intros H; vm_compute in H; discriminate|]).
    apply List.Forall_nil.
Defined.

(** The three records of that feed span two days. *)
Example tie_range :
  range tie_frame
  = Ok {| first_timestamp := Timestamp 1704056400000000000;
          last_timestamp := Timestamp 1704229200000000000;
          days_passed := 2 |}.
Proof. vm_compute. reflexivity. Qed.


Lemma fetch_data_order_independent_witness :
  ∃ df', ref_fetch_data (good scenario_feed_reversed) = (df', [])
         ∧ columns df' = columns scenario_frame
         ∧ ref_main (good scenario_feed_reversed) = ref_main (good scenario_feed).
Proof.
  apply (fetch_data_order_independent Reference.to_datetime_scalar Reference.decimal
           (good scenario_feed) (good scenario_feed_reversed)
           scenario_feed scenario_feed_reversed scenario_frame).
  - is_delivered.
  - is_delivered.
  - apply perm_swap.
  - repeat (apply List.Forall_cons; [intros H; vm_compute in H; discriminate|]).
    apply List.Forall_nil.
  - intros e1 e2 He1 He2 Heq.
    apply elem_of_cons in He1 as [->|He1]; [|apply list_elem_of_singleton in He1 as ->];
      (apply elem_of_cons in He2 as [->|He2];
         [|apply list_elem_of_singleton in He2 as ->]);
      try reflexivity; vm_compute in Heq; discriminate.
  - vm_compute. reflexivity.
Defined.
